(** * simple_term_menu.py: a shallow embedding and its verified properties

    The development follows the layout of the Python module: string and
    dictionary helpers, the effect model (terminal device, standard streams,
    the [tput] tool), the class [TerminalMenu] method by method, then
    [parse_arguments] and [main]. *)

From Stdlib Require Import ZArith List String Ascii Bool Lia.
From Stdlib.Strings Require Import Byte.
Import ListNotations.
Open Scope string_scope.
Open Scope Z_scope.

(** ** Python strings *)

Module PyStr.

(** [n * s] for an integer [n] and a string [s]; empty when [n <= 0]. *)
Fixpoint repeat_nat (n : nat) (s : string) : string :=
  match n with
  | O => ""
  | S k => s ++ repeat_nat k s
  end.

Definition mul (n : Z) (s : string) : string := repeat_nat (Z.to_nat n) s.

Definition len (s : string) : Z := Z.of_nat (String.length s).

(** [s.startswith(p)] *)
Definition startswith (p s : string) : bool := String.prefix p s.

(** [sep.join(l)] *)
Fixpoint join (sep : string) (l : list string) : string :=
  match l with
  | [] => ""
  | [x] => x
  | x :: rest => x ++ sep ++ join sep rest
  end.

(** [s.split(c)] for a one-character separator: never returns an empty list. *)
Fixpoint split_on (c : ascii) (s : string) : list string :=
  match s with
  | EmptyString => [""]
  | String a rest =>
      if Ascii.eqb a c then "" :: split_on c rest
      else match split_on c rest with
           | [] => [String a ""]
           | w :: ws => String a w :: ws
           end
  end.

Definition is_space (a : ascii) : bool :=
  let n := N_of_ascii a in
  ((9 <=? n) && (n <=? 13))%N || (n =? 32)%N || ((28 <=? n) && (n <=? 31))%N.

(** [s.split()]: split on runs of whitespace, dropping empty words. *)
Fixpoint split_ws_aux (cur : string) (s : string) : list string :=
  match s with
  | EmptyString => if String.eqb cur "" then [] else [cur]
  | String a rest =>
      if is_space a
      then (if String.eqb cur "" then split_ws_aux "" rest
            else cur :: split_ws_aux "" rest)
      else split_ws_aux (cur ++ String a "") rest
  end.

Definition split_ws (s : string) : list string := split_ws_aux "" s.

Definition lower_char (a : ascii) : ascii :=
  let n := N_of_ascii a in
  if ((65 <=? n) && (n <=? 90))%N then ascii_of_N (n + 32) else a.

(** [s.lower()] on text decoded from ASCII. *)
Fixpoint lower (s : string) : string :=
  match s with
  | EmptyString => EmptyString
  | String a rest => String (lower_char a) (lower rest)
  end.

Definition is_digit (a : ascii) : bool :=
  let n := N_of_ascii a in ((48 <=? n) && (n <=? 57))%N.

Fixpoint strip_left (s : string) : string :=
  match s with
  | String a rest => if is_space a then strip_left rest else s
  | EmptyString => EmptyString
  end.

Fixpoint rev_str (s acc : string) : string :=
  match s with
  | EmptyString => acc
  | String a rest => rev_str rest (String a acc)
  end.

(** [s.strip()] *)
Definition strip (s : string) : string :=
  rev_str (strip_left (rev_str (strip_left s) "")) "".

Fixpoint digits_value (s : string) (acc : Z) : option Z :=
  match s with
  | EmptyString => Some acc
  | String a rest =>
      if is_digit a
      then digits_value rest (10 * acc + Z.of_N (N_of_ascii a) - 48)
      else None
  end.

(** [int(s)] for decimal text: surrounding whitespace and one sign are
    accepted; anything else is a [ValueError], here [None]. *)
Definition to_int (s : string) : option Z :=
  match strip s with
  | EmptyString => None
  | String "-" (String a r) => option_map Z.opp (digits_value (String a r) 0)
  | String "+" (String a r) => digits_value (String a r) 0
  | t => digits_value t 0
  end.

End PyStr.

(** ** Python dictionaries with string keys

  A [dict] keeps its keys in insertion order and [_init_terminal_codes]
  iterates over one, so a dictionary is an association list without
  repeated keys, in insertion order. *)

Module PyDict.

Definition t := list (string * string).

Fixpoint get (k : string) (d : t) : option string :=
  match d with
  | [] => None
  | (k', v) :: rest => if String.eqb k k' then Some v else get k rest
  end.

(** [k in d] *)
Definition mem (k : string) (d : t) : bool :=
  match get k d with Some _ => true | None => false end.

(** [d[k] = v]: an existing key keeps its position, a new key goes last. *)
Fixpoint set (k v : string) (d : t) : t :=
  match d with
  | [] => [(k, v)]
  | (k', v') :: rest =>
      if String.eqb k k' then (k', v) :: rest else (k', v') :: set k v rest
  end.

(** [d.update(e)] *)
Definition update (d e : t) : t :=
  fold_left (fun acc kv => set (fst kv) (snd kv) acc) e d.

(** [{v: k for k, v in d.items()}] *)
Definition invert (d : t) : t :=
  fold_left (fun acc kv => set (snd kv) (fst kv) acc) d [].

Definition keys (d : t) : list string := map fst d.

End PyDict.

(** ** Module constants *)

Definition __version__ : string := "0.4.5".
Definition DEFAULT_MENU_CURSOR : string := "> ".
Definition DEFAULT_MENU_CURSOR_STYLE : list string := ["fg_red"; "bold"].
Definition DEFAULT_MENU_HIGHLIGHT_STYLE : list string := ["standout"].
Definition DEFAULT_CYCLE_CURSOR : bool := true.

Definition LF : string := String (ascii_of_N 10) "".
Definition CR : string := String (ascii_of_N 13) "".
Definition ESC : string := String (ascii_of_N 27) "".

Definition _codename_to_capname : PyDict.t :=
  [ ("bg_black", "setab 0");
    ("bg_blue", "setab 4");
    ("bg_cyan", "setab 6");
    ("bg_gray", "setab 7");
    ("bg_green", "setab 2");
    ("bg_purple", "setab 5");
    ("bg_red", "setab 1");
    ("bg_yellow", "setab 3");
    ("bold", "bold");
    ("colors", "colors");
    ("cursor_down", "cud1");
    ("cursor_invisible", "civis");
    ("cursor_up", "cuu1");
    ("cursor_visible", "cnorm");
    ("delete_line", "dl1");
    ("down", "kcud1");
    ("enter_application_mode", "smkx");
    ("exit_application_mode", "rmkx");
    ("fg_black", "setaf 0");
    ("fg_blue", "setaf 4");
    ("fg_cyan", "setaf 6");
    ("fg_gray", "setaf 7");
    ("fg_green", "setaf 2");
    ("fg_purple", "setaf 5");
    ("fg_red", "setaf 1");
    ("fg_yellow", "setaf 3");
    ("italics", "sitm");
    ("reset_attributes", "sgr0");
    ("standout", "smso");
    ("underline", "smul");
    ("up", "kcuu1") ].

Definition _name_to_control_character : PyDict.t :=
  [ ("enter", LF); ("escape", ESC) ].

Definition _codenames : list string := PyDict.keys _codename_to_capname.

Definition DQUOTE : string := String (ascii_of_N 34) EmptyString.

(** ** Exceptions raised or caught by the module *)

Inductive Exn : Type :=
| KeyboardInterrupt
| SystemExit (code : Z)
| InvalidStyleError (msg : string)
| NoMenuEntriesError (msg : string)
| CalledProcessError (returncode : Z)
| FileNotFoundError
| UnicodeDecodeError
| ValueError
| KeyError (key : string)
| AssertionError
| TermiosError
| TypeError
| OSError.

(** ** The environment: terminal device, streams, the [tput] tool *)

(** The list returned by [termios.tcgetattr]:
    [iflag, oflag, cflag, lflag, ispeed, ospeed, cc]. *)
Record Termios : Type := mkTermios {
  iflag : Z;
  oflag : Z;
  cflag : Z;
  lflag : Z;
  ispeed : Z;
  ospeed : Z;
  cc : list Z
}.

(** One run of [tput]: its exit status and what it printed, or no run at all
    when the tool cannot be started. *)
Inductive TputResult : Type :=
| Completed (returncode : Z) (output : string)
| NotStarted.

(** What the platform fixes and the module only reads: the two [termios]
    flag constants and the answers of [tput] for the current terminal. *)
Record Platform : Type := mkPlatform {
  ICANON : Z;
  ECHO : Z;
  tput : list string -> TputResult
}.

(** Effects, in the order they happen. *)
Inductive Event : Type :=
| EvTcGetAttr
| EvTcSetAttr (a : Termios)
| EvStdout (s : string)
| EvFlush
| EvStderr (s : string)
| EvRead (chunk : list byte)
| EvTput (args : list string).

(** What one [os.read] on the terminal delivers: a chunk of bytes, or the
    interrupt signal arriving while the read blocks. *)
Inductive ReadEvent : Type :=
| Chunk (bytes : list byte)
| Interrupt.

(** The mutable state a run threads through: the attribute configuration of
    the terminal device, the log of effects, the outcomes of the coming
    [termios] calls and writes to standard output ([None]: the operation
    succeeds, [Some e]: it raises [e]; past the end every operation
    succeeds), the two class
    attributes holding the capability maps, and the two instance attributes
    [_old_term] and [_new_term]. *)
Record World : Type := mkWorld {
  tty_attrs : Termios;
  trace : list Event;
  faults : list (option Exn);
  _codename_to_terminal_code : option PyDict.t;
  _terminal_code_to_codename : option PyDict.t;
  _old_term : option Termios;
  _new_term : option Termios
}.

Definition with_tty_attrs (a : Termios) (w : World) : World :=
  mkWorld a (trace w) (faults w) (_codename_to_terminal_code w)
          (_terminal_code_to_codename w) (_old_term w) (_new_term w).

Definition with_trace (t : list Event) (w : World) : World :=
  mkWorld (tty_attrs w) t (faults w) (_codename_to_terminal_code w)
          (_terminal_code_to_codename w) (_old_term w) (_new_term w).

Definition with_faults (f : list (option Exn)) (w : World) : World :=
  mkWorld (tty_attrs w) (trace w) f (_codename_to_terminal_code w)
          (_terminal_code_to_codename w) (_old_term w) (_new_term w).

Definition with_codename_to_terminal_code (d : option PyDict.t) (w : World) : World :=
  mkWorld (tty_attrs w) (trace w) (faults w) d
          (_terminal_code_to_codename w) (_old_term w) (_new_term w).

Definition with_terminal_code_to_codename (d : option PyDict.t) (w : World) : World :=
  mkWorld (tty_attrs w) (trace w) (faults w) (_codename_to_terminal_code w)
          d (_old_term w) (_new_term w).

Definition with_old_term (a : option Termios) (w : World) : World :=
  mkWorld (tty_attrs w) (trace w) (faults w) (_codename_to_terminal_code w)
          (_terminal_code_to_codename w) a (_new_term w).

Definition with_new_term (a : option Termios) (w : World) : World :=
  mkWorld (tty_attrs w) (trace w) (faults w) (_codename_to_terminal_code w)
          (_terminal_code_to_codename w) (_old_term w) a.

(** ** The monad of the embedding: state, exceptions, and a blocked read *)

Inductive Res (A : Type) : Type :=
| Ok (a : A)
| Raise (e : Exn)
| Blocked.

Arguments Ok {A} a.
Arguments Raise {A} e.
Arguments Blocked {A}.

Definition M (A : Type) : Type := World -> Res A * World.

Definition ret {A : Type} (a : A) : M A := fun w => (Ok a, w).

Definition raise {A : Type} (e : Exn) : M A := fun w => (Raise e, w).

Definition blocked {A : Type} : M A := fun w => (Blocked, w).

Definition bind {A B : Type} (m : M A) (k : A -> M B) : M B :=
  fun w =>
    match m w with
    | (Ok a, w') => k a w'
    | (Raise e, w') => (Raise e, w')
    | (Blocked, w') => (Blocked, w')
    end.

Notation "x <- m ;; k" := (bind m (fun x => k))
  (at level 61, m at next level, right associativity).
Notation "m ;; k" := (bind m (fun _ => k))
  (at level 61, right associativity).

(** [try: body / except <those e with handler e = Some h>: h] *)
Definition try_except {A : Type} (body : M A) (handler : Exn -> option (M A)) : M A :=
  fun w =>
    match body w with
    | (Raise e, w') =>
        match handler e with
        | Some h => h w'
        | None => (Raise e, w')
        end
    | other => other
    end.

(** [try: body / finally: fin]: [fin] runs when [body] returns and when it
    raises; an exception of [fin] replaces the pending one. *)
Definition try_finally {A : Type} (body : M A) (fin : M unit) : M A :=
  fun w =>
    match body w with
    | (Blocked, w') => (Blocked, w')
    | (r, w') =>
        match fin w' with
        | (Ok _, w'') => (r, w'')
        | (Raise e, w'') => (Raise e, w'')
        | (Blocked, w'') => (Blocked, w'')
        end
    end.

Fixpoint for_each {A : Type} (l : list A) (f : A -> M unit) : M unit :=
  match l with
  | [] => ret tt
  | x :: rest => f x ;; for_each rest f
  end.

(** [for i, x in enumerate(l)], counting from [i]. *)
Fixpoint for_enumerate {A : Type} (i : Z) (l : list A) (f : Z -> A -> M unit) : M unit :=
  match l with
  | [] => ret tt
  | x :: rest => f i x ;; for_enumerate (i + 1) rest f
  end.

Definition when (b : bool) (m : M unit) : M unit := if b then m else ret tt.

Definition log (e : Event) : M unit :=
  fun w => (Ok tt, with_trace (trace w ++ [e]) w).

(** A [termios] call or a write to standard output consumes the next
    scheduled outcome. *)
Definition device_op : M unit :=
  fun w =>
    match faults w with
    | [] => (Ok tt, w)
    | None :: rest => (Ok tt, with_faults rest w)
    | Some e :: rest => (Raise e, with_faults rest w)
    end.

(** [sys.stdout.write(s)] *)
Definition stdout_write (s : string) : M unit :=
  device_op ;; log (EvStdout s).

(** [sys.stdout.flush()] *)
Definition stdout_flush : M unit :=
  device_op ;; log EvFlush.

(** [print(s)] *)
Definition py_print (s : string) : M unit :=
  stdout_write s ;; stdout_write LF.

(** [print(s, file=sys.stderr)] *)
Definition stderr_print (s : string) : M unit :=
  log (EvStderr s) ;; log (EvStderr LF).

(** [termios.tcgetattr(fd)] *)
Definition tcgetattr : M Termios :=
  device_op ;; log EvTcGetAttr ;; (fun w => (Ok (tty_attrs w), w)).

(** [termios.tcsetattr(fd, termios.TCSAFLUSH, a)] *)
Definition tcsetattr (a : Termios) : M unit :=
  device_op ;; log (EvTcSetAttr a) ;; (fun w => (Ok tt, with_tty_attrs a w)).

(** [os.read(fd, 80)] when the terminal delivers [ev]. *)
Definition os_read (ev : ReadEvent) : M (list byte) :=
  match ev with
  | Chunk bytes => log (EvRead bytes) ;; ret bytes
  | Interrupt => raise KeyboardInterrupt
  end.

(** [bytes.decode("ascii")] *)
Fixpoint decode_ascii (bytes : list byte) : option string :=
  match bytes with
  | [] => Some EmptyString
  | b :: rest =>
      if (Byte.to_N b <? 128)%N
      then option_map (String (ascii_of_byte b)) (decode_ascii rest)
      else None
  end.

(** ** class TerminalMenu *)

(** The attributes [__init__] fixes for the lifetime of the object. *)
Record TerminalMenu : Type := mkTerminalMenu {
  _menu_entries : list string;
  _title : option string;
  _menu_cursor : string;
  _menu_cursor_style : list string;
  _menu_highlight_style : list string;
  _cycle_cursor : bool
}.

(** [x in (a, b, ...)] for strings. *)
Definition str_in (x : string) (l : list string) : bool :=
  existsb (String.eqb x) l.

(** [len(self._menu_entries)] *)
Definition num_entries (self : TerminalMenu) : Z :=
  Z.of_nat (List.length (_menu_entries self)).

(** How one pass through the body of [while True] ends. *)
Inductive LoopCtl : Type :=
| Continue (selected_index : Z)
| Break (selected_index : option Z).

Section Methods.

Variable P : Platform.

(** [subprocess.check_output(["tput"] + args, universal_newlines=True)] *)
Definition check_output_tput (args : list string) : M string :=
  log (EvTput args) ;;
  match tput P args with
  | Completed 0 output => ret output
  | Completed returncode _ => raise (CalledProcessError returncode)
  | NotStarted => raise FileNotFoundError
  end.

Definition _query_terminfo_database (codename : string) : M string :=
  let capname :=
    match PyDict.get codename _codename_to_capname with
    | Some c => c
    | None => codename
    end in
  try_except (check_output_tput (PyStr.split_ws capname))
    (fun e =>
       match e with
       | CalledProcessError returncode =>
           (* The return code 1 indicates a missing terminal capability *)
           Some (if returncode =? 1 then ret EmptyString else raise e)
       | _ => None
       end).

Definition is_color_codename (codename : string) : bool :=
  PyStr.startswith "bg_" codename || PyStr.startswith "fg_" codename.

(** The dictionary comprehension of [_init_terminal_codes], one codename
    after the other. *)
Fixpoint query_codenames (supported_colors : Z) (codenames : list string)
                         (acc : PyDict.t) : M PyDict.t :=
  match codenames with
  | [] => ret acc
  | codename :: rest =>
      code <- (if negb (is_color_codename codename) || (supported_colors >=? 8)
               then _query_terminfo_database codename
               else ret EmptyString) ;;
      query_codenames supported_colors rest (PyDict.set codename code acc)
  end.

Definition _init_terminal_codes : M unit :=
  fun w =>
    match _codename_to_terminal_code w with
    | Some _ => (Ok tt, w)
    | None =>
        (colors <- _query_terminfo_database "colors" ;;
         supported_colors <- (match PyStr.to_int colors with
                              | Some n => ret n
                              | None => raise ValueError
                              end) ;;
         d <- query_codenames supported_colors _codenames [] ;;
         let d' := PyDict.update d _name_to_control_character in
         fun w1 =>
           (Ok tt,
            with_terminal_code_to_codename (Some (PyDict.invert d'))
              (with_codename_to_terminal_code (Some d') w1))) w
    end.

Definition _check_for_valid_styles (self : TerminalMenu) : M unit :=
  let invalid_styles :=
    filter (fun style => negb (PyDict.mem style _codename_to_capname))
           (_menu_cursor_style self ++ _menu_highlight_style self) in
  match invalid_styles with
  | [] => ret tt
  | [style] =>
      raise (InvalidStyleError
               ("The style " ++ DQUOTE ++ style ++ DQUOTE ++ " does not exist."))
  | _ =>
      raise (InvalidStyleError
               ("The styles (" ++ DQUOTE
                ++ PyStr.join (DQUOTE ++ ", " ++ DQUOTE) invalid_styles
                ++ DQUOTE ++ ") do not exist."))
  end.

(** [TerminalMenu(menu_entries, title, menu_cursor, menu_cursor_style,
    menu_highlight_style, cycle_cursor)] *)
Definition __init__ (menu_entries : list string) (title : option string)
    (menu_cursor : option string) (menu_cursor_style : option (list string))
    (menu_highlight_style : option (list string)) (cycle_cursor : bool)
    : M TerminalMenu :=
  let self :=
    {| _menu_entries := menu_entries;
       _title := title;
       _menu_cursor := match menu_cursor with Some c => c | None => EmptyString end;
       _menu_cursor_style := match menu_cursor_style with Some l => l | None => [] end;
       _menu_highlight_style := match menu_highlight_style with Some l => l | None => [] end;
       _cycle_cursor := cycle_cursor |} in
  (fun w => (Ok tt, with_new_term None (with_old_term None w))) ;;
  _check_for_valid_styles self ;;
  _init_terminal_codes ;;
  ret self.

(** [assert self._codename_to_terminal_code is not None] *)
Definition assert_codes : M unit :=
  fun w =>
    match _codename_to_terminal_code w with
    | Some _ => (Ok tt, w)
    | None => (Raise AssertionError, w)
    end.

(** [self._codename_to_terminal_code[codename]] *)
Definition terminal_code (codename : string) : M string :=
  fun w =>
    match _codename_to_terminal_code w with
    | Some d =>
        match PyDict.get codename d with
        | Some code => (Ok code, w)
        | None => (Raise (KeyError codename), w)
        end
    | None => (Raise TypeError, w)
    end.

Definition _init_term : M unit :=
  assert_codes ;;
  old <- tcgetattr ;;
  (fun w => (Ok tt, with_old_term (Some old) w)) ;;
  new <- tcgetattr ;;
  (* unbuffered and no echo *)
  let new :=
    mkTermios (iflag new) (oflag new) (cflag new)
              (Z.land (Z.land (lflag new) (Z.lnot (ICANON P))) (Z.lnot (ECHO P)))
              (ispeed new) (ospeed new) (cc new) in
  (fun w => (Ok tt, with_new_term (Some new) w)) ;;
  tcsetattr new ;;
  (* Enter terminal application mode to get expected escape codes for arrow keys *)
  s <- terminal_code "enter_application_mode" ;;
  stdout_write s ;;
  s <- terminal_code "cursor_invisible" ;;
  stdout_write s.

Definition _reset_term : M unit :=
  assert_codes ;;
  old <- (fun w =>
            match _old_term w with
            | Some a => (Ok a, w)
            | None => (Raise AssertionError, w)
            end) ;;
  tcsetattr old ;;
  s <- terminal_code "cursor_visible" ;;
  stdout_write s ;;
  s <- terminal_code "exit_application_mode" ;;
  stdout_write s.

Definition _read_next_key (ev : ReadEvent) (ignore_case : bool) : M string :=
  bytes <- os_read ev ;;
  code <- (match decode_ascii bytes with
           | Some s => ret s
           | None => raise UnicodeDecodeError
           end) ;;
  rev <- (fun w =>
            match _terminal_code_to_codename w with
            | Some d => (Ok d, w)
            | None => (Raise TypeError, w)
            end) ;;
  match PyDict.get code rev with
  | Some codename => ret codename
  | None => if ignore_case then ret (PyStr.lower code) else ret code
  end.

(** The functions local to [show]. *)

Definition print_menu (self : TerminalMenu) (selected_index : Z) (with_title : bool)
    : M unit :=
  match _title self with
  | Some title => when with_title (py_print title)
  | None => ret tt
  end ;;
  for_enumerate 0 (_menu_entries self)
    (fun i menu_entry =>
       stdout_write (PyStr.mul (PyStr.len (_menu_cursor self)) " ") ;;
       when (i =? selected_index)
         (for_each (_menu_highlight_style self)
            (fun style => s <- terminal_code style ;; stdout_write s)) ;;
       stdout_write menu_entry ;;
       when (i =? selected_index)
         (s <- terminal_code "reset_attributes" ;; stdout_write s) ;;
       when (i <? num_entries self - 1) (stdout_write LF)) ;;
  up <- terminal_code "cursor_up" ;;
  stdout_write (CR ++ PyStr.mul (num_entries self - 1) up).

Definition clear_menu (self : TerminalMenu) : M unit :=
  match _title self with
  | Some _ =>
      up <- terminal_code "cursor_up" ;;
      dl <- terminal_code "delete_line" ;;
      stdout_write (up ++ dl)
  | None => ret tt
  end ;;
  dl <- terminal_code "delete_line" ;;
  stdout_write (PyStr.mul (num_entries self) dl) ;;
  stdout_flush.

Definition position_cursor (self : TerminalMenu) (selected_index : Z) : M unit :=
  (* delete the first column *)
  down <- terminal_code "cursor_down" ;;
  stdout_write
    (PyStr.mul (num_entries self - 1)
       (PyStr.mul (PyStr.len (_menu_cursor self)) " " ++ CR ++ down)
     ++ PyStr.mul (PyStr.len (_menu_cursor self)) " "
     ++ CR) ;;
  up <- terminal_code "cursor_up" ;;
  stdout_write (PyStr.mul (num_entries self - 1) up) ;;
  (* position cursor and print menu selection character *)
  down <- terminal_code "cursor_down" ;;
  stdout_write (PyStr.mul selected_index down) ;;
  for_each (_menu_cursor_style self)
    (fun style => s <- terminal_code style ;; stdout_write s) ;;
  stdout_write (_menu_cursor self) ;;
  reset <- terminal_code "reset_attributes" ;;
  stdout_write (reset ++ CR) ;;
  up <- terminal_code "cursor_up" ;;
  stdout_write (PyStr.mul selected_index up).

(** The [if]/[elif] chain on [next_key] in the loop of [show]. *)
Definition handle_key (self : TerminalMenu) (selected_index : Z) (next_key : string)
    : LoopCtl :=
  if str_in next_key ["up"; "k"] then
    let selected_index := selected_index - 1 in
    if selected_index <? 0 then
      if _cycle_cursor self then Continue (num_entries self - 1)
      else Continue 0
    else Continue selected_index
  else if str_in next_key ["down"; "j"] then
    let selected_index := selected_index + 1 in
    if selected_index >=? num_entries self then
      if _cycle_cursor self then Continue 0
      else Continue (num_entries self - 1)
    else Continue selected_index
  else if str_in next_key ["enter"] then Break (Some selected_index)
  else if str_in next_key ["escape"] then Break None
  else Continue selected_index.

(** The [while True] loop of [show], fed with what the successive reads
    deliver; when nothing is left to deliver the read blocks for good. *)
Fixpoint menu_loop (self : TerminalMenu) (script : list ReadEvent)
                   (selected_index : Z) {struct script} : M (option Z) :=
  position_cursor self selected_index ;;
  match script with
  | [] => blocked
  | ev :: rest =>
      next_key <- _read_next_key ev true ;;
      match handle_key self selected_index next_key with
      | Break result => ret result
      | Continue selected_index' =>
          print_menu self selected_index' false ;;
          menu_loop self rest selected_index'
      end
  end.

Definition on_KeyboardInterrupt (e : Exn) : option (M (option Z)) :=
  match e with
  | KeyboardInterrupt => Some (ret None)
  | _ => None
  end.

Definition show (self : TerminalMenu) (script : list ReadEvent) : M (option Z) :=
  assert_codes ;;
  _init_term ;;
  print_menu self 0 true ;;
  try_finally
    (try_except (menu_loop self script 0) on_KeyboardInterrupt)
    (clear_menu self ;; _reset_term).

(** ** Command line *)

(** What [argparse] hands back: the parsed options, or a [SystemExit] of its
    own (after printing the help text or a usage error). *)
Record Namespace : Type := mkNamespace {
  ns_title : option string;
  ns_cursor : string;
  ns_cursor_style : string;
  ns_highlight_style : string;
  ns_cycle : bool;
  ns_print_version : bool;
  ns_entries : list string
}.

Inductive ParseArgs : Type :=
| ArgparseExit (code : Z)
| Parsed (ns : Namespace).

(** The [AttributeDict] returned by [parse_arguments]. *)
Record Args : Type := mkArgs {
  title : option string;
  cursor : string;
  cursor_style : option (list string);
  highlight_style : option (list string);
  cycle : bool;
  print_version : bool;
  entries : list string
}.

Definition is_empty {A : Type} (l : list A) : bool :=
  match l with [] => true | _ => false end.

Definition style_option (s : string) : option (list string) :=
  if negb (String.eqb s EmptyString) then Some (PyStr.split_on "," s) else None.

Definition parse_arguments (argv : ParseArgs) : M Args :=
  ns <- (match argv with
         | ArgparseExit code => raise (SystemExit code)
         | Parsed ns => ret ns
         end) ;;
  if negb (ns_print_version ns) && is_empty (ns_entries ns)
  then raise (NoMenuEntriesError "No menu entries given!")
  else ret (mkArgs (ns_title ns) (ns_cursor ns)
                   (style_option (ns_cursor_style ns))
                   (style_option (ns_highlight_style ns))
                   (ns_cycle ns) (ns_print_version ns) (ns_entries ns)).

Definition on_parse_error (e : Exn) : option (M Args) :=
  match e with
  | SystemExit _ => Some (raise (SystemExit 0)) (* Error code 0 is the error case in this program *)
  | NoMenuEntriesError msg => Some (stderr_print msg ;; raise (SystemExit 0))
  | _ => None
  end.

Definition on_InvalidStyleError (e : Exn) : option (M TerminalMenu) :=
  match e with
  | InvalidStyleError msg => Some (stderr_print msg ;; raise (SystemExit 0))
  | _ => None
  end.

(** [main()], for the program name [prog], the outcome [argv] of option
    parsing and what the terminal delivers to the successive reads. *)
Definition main (prog : string) (argv : ParseArgs) (script : list ReadEvent) : M unit :=
  args <- try_except (parse_arguments argv) on_parse_error ;;
  if print_version args then
    py_print (prog ++ ", version " ++ __version__) ;;
    raise (SystemExit 0)
  else
    terminal_menu <-
      try_except
        (__init__ (entries args) (title args) (Some (cursor args))
                  (cursor_style args) (highlight_style args) (cycle args))
        on_InvalidStyleError ;;
    chosen_entry <- show terminal_menu script ;;
    match chosen_entry with
    | None => raise (SystemExit 0)
    | Some i => raise (SystemExit (i + 1))
    end.

End Methods.

(** A process starts with both class attributes unset. *)
Definition fresh_world (attrs : Termios) (fs : list (option Exn)) : World :=
  mkWorld attrs [] fs None None None None.

(** An xterm-like terminal with 256 colours on Linux. *)
Definition xterm_tput (args : list string) : TputResult :=
  match args with
  | ["colors"] => Completed 0 ("256" ++ LF)
  | ["cud1"] => Completed 0 LF
  | ["cuu1"] => Completed 0 (ESC ++ "[A")
  | ["kcud1"] => Completed 0 (ESC ++ "OB")
  | ["kcuu1"] => Completed 0 (ESC ++ "OA")
  | ["civis"] => Completed 0 (ESC ++ "[?25l")
  | ["cnorm"] => Completed 0 (ESC ++ "[?12l" ++ ESC ++ "[?25h")
  | ["dl1"] => Completed 0 (ESC ++ "[M")
  | ["smkx"] => Completed 0 (ESC ++ "[?1h" ++ ESC ++ "=")
  | ["rmkx"] => Completed 0 (ESC ++ "[?1l" ++ ESC ++ ">")
  | ["bold"] => Completed 0 (ESC ++ "[1m")
  | ["sitm"] => Completed 0 (ESC ++ "[3m")
  | ["sgr0"] => Completed 0 (ESC ++ "(B" ++ ESC ++ "[m")
  | ["smso"] => Completed 0 (ESC ++ "[7m")
  | ["smul"] => Completed 0 (ESC ++ "[4m")
  | ["setab"; n] => Completed 0 (ESC ++ "[4" ++ n ++ "m")
  | ["setaf"; n] => Completed 0 (ESC ++ "[3" ++ n ++ "m")
  | _ => Completed 4 EmptyString
  end.

Definition linux_xterm : Platform := mkPlatform 2 8 xterm_tput.

(** A terminal in its usual cooked mode: [ICANON] and [ECHO] set. *)
Definition cooked : Termios := mkTermios 17664 5 191 35387 15 15 [].

(** An old terminal without colours: [tput colors] prints -1, the keypad and
    cursor-visibility capabilities are absent. *)
Definition vt100_tput (args : list string) : TputResult :=
  match args with
  | ["colors"] => Completed 0 ("-1" ++ LF)
  | ["cud1"] => Completed 0 LF
  | ["cuu1"] => Completed 0 (ESC ++ "[A")
  | ["kcud1"] => Completed 0 (ESC ++ "OB")
  | ["kcuu1"] => Completed 0 (ESC ++ "OA")
  | ["bold"] => Completed 0 (ESC ++ "[1m")
  | ["sgr0"] => Completed 0 (ESC ++ "[m")
  | ["smso"] => Completed 0 (ESC ++ "[7m")
  | ["smul"] => Completed 0 (ESC ++ "[4m")
  | ["smkx"] => Completed 0 (ESC ++ "[?1h" ++ ESC ++ "=")
  | ["rmkx"] => Completed 0 (ESC ++ "[?1l" ++ ESC ++ ">")
  | ["setab"; _] => Completed 1 EmptyString
  | ["setaf"; _] => Completed 1 EmptyString
  | ["civis"] => Completed 1 EmptyString
  | ["cnorm"] => Completed 1 EmptyString
  | ["dl1"] => Completed 1 EmptyString
  | ["sitm"] => Completed 1 EmptyString
  | _ => Completed 4 EmptyString
  end.

Definition linux_vt100 : Platform := mkPlatform 2 8 vt100_tput.

(** A terminal type the capability database does not know: every query
    ends with status 3. *)
Definition unknown_terminal : Platform :=
  mkPlatform 2 8 (fun _ => Completed 3 EmptyString).

(** ** The selection state machine that [show] implements

    The states and events of the loop of [show], read off [handle_key] and
    the [except KeyboardInterrupt] clause. *)

Inductive KeyEvent : Type :=
| Key (next_key : string)
| ExternalInterrupt.

Inductive SelectionState : Type :=
| Active (index : Z)
| Selected (index : Z)
| Cancelled.

Definition transition (self : TerminalMenu) (st : SelectionState) (ev : KeyEvent)
    : SelectionState :=
  match st with
  | Active i =>
      match ev with
      | Key next_key =>
          match handle_key self i next_key with
          | Continue j => Active j
          | Break (Some j) => Selected j
          | Break None => Cancelled
          end
      | ExternalInterrupt => Cancelled
      end
  | _ => st
  end.

Definition run_session (self : TerminalMenu) (evs : list KeyEvent) : SelectionState :=
  fold_left (transition self) evs (Active 0).

(** The key [_read_next_key] returns for a decoded chunk [code]. *)
Definition key_of_code (rev : PyDict.t) (ignore_case : bool) (code : string) : string :=
  match PyDict.get code rev with
  | Some codename => codename
  | None => if ignore_case then PyStr.lower code else code
  end.

(** The event a read contributes to the loop of [show]; [None] when the
    chunk does not decode. *)
Definition event_of (rev : PyDict.t) (ev : ReadEvent) : option KeyEvent :=
  match ev with
  | Interrupt => Some ExternalInterrupt
  | Chunk bytes =>
      option_map (fun code => Key (key_of_code rev true code)) (decode_ascii bytes)
  end.

(** A read that takes the loop of [show] out of its active state. *)
Definition ends_session (rev : PyDict.t) (ev : ReadEvent) : bool :=
  match event_of rev ev with
  | Some (Key next_key) => str_in next_key ["enter"] || str_in next_key ["escape"]
  | Some ExternalInterrupt => true
  | None => true
  end.

(** How the loop of [show] ends on a script, leaving the writes aside. *)
Fixpoint loop_outcome (self : TerminalMenu) (rev : PyDict.t)
                      (script : list ReadEvent) (selected_index : Z)
    : Res (option Z) :=
  match script with
  | [] => Blocked
  | ev :: rest =>
      match event_of rev ev with
      | None => Raise UnicodeDecodeError
      | Some ExternalInterrupt => Raise KeyboardInterrupt
      | Some (Key next_key) =>
          match handle_key self selected_index next_key with
          | Break result => Ok result
          | Continue selected_index' => loop_outcome self rev rest selected_index'
          end
      end
  end.

(** ** Predicates used in the statements *)

(** The class attributes are set to [d] and [rev] and no device fault is
    scheduled. *)
Definition ready (d rev : PyDict.t) (w : World) : Prop :=
  faults w = []
  /\ _codename_to_terminal_code w = Some d
  /\ _terminal_code_to_codename w = Some rev.

(** Every codename of the class has an entry in [d]. *)
Definition has_codenames (d : PyDict.t) : bool :=
  forallb (fun codename => PyDict.mem codename d) _codenames.

(** Both style tuples of the menu passed [_check_for_valid_styles]. *)
Definition valid_styles (self : TerminalMenu) : bool :=
  forallb (fun style => PyDict.mem style _codename_to_capname)
          (_menu_cursor_style self ++ _menu_highlight_style self).


(** Writes to standard output, flushes and reads of the terminal. *)
Definition is_io_event (e : Event) : bool :=
  match e with
  | EvStdout _ | EvFlush | EvRead _ => true
  | _ => false
  end.

(** [new_term[3] & ~ICANON & ~ECHO] applied to a configuration. *)
Definition raw_of (P : Platform) (a : Termios) : Termios :=
  mkTermios (iflag a) (oflag a) (cflag a)
            (Z.land (Z.land (lflag a) (Z.lnot (ICANON P))) (Z.lnot (ECHO P)))
            (ispeed a) (ospeed a) (cc a).

(** The effects of [_init_term] and of [_reset_term] on a terminal whose
    configuration is [a], with the capability map [d]. *)
Definition code_or_empty (d : PyDict.t) (codename : string) : string :=
  match PyDict.get codename d with Some s => s | None => EmptyString end.

Definition enter_events (P : Platform) (d : PyDict.t) (a : Termios) : list Event :=
  [ EvTcGetAttr; EvTcGetAttr; EvTcSetAttr (raw_of P a);
    EvStdout (code_or_empty d "enter_application_mode");
    EvStdout (code_or_empty d "cursor_invisible") ].

Definition exit_events (d : PyDict.t) (a : Termios) : list Event :=
  [ EvTcSetAttr a;
    EvStdout (code_or_empty d "cursor_visible");
    EvStdout (code_or_empty d "exit_application_mode") ].

(** The styles a command-line option asks for. *)
Definition styles_of (o : option (list string)) : list string :=
  match o with Some l => l | None => [] end.

(** The index of an active state is a valid entry index. *)
Definition state_in_range (self : TerminalMenu) (st : SelectionState) : Prop :=
  match st with
  | Active i => 0 <= i < num_entries self
  | _ => True
  end.

(** The step of the comprehension that builds the reverse map. *)
Definition invert_step (acc : PyDict.t) (kv : string * string) : PyDict.t :=
  PyDict.set (snd kv) (fst kv) acc.

Definition is_tput_event (e : Event) : bool :=
  match e with
  | EvTput _ => true
  | _ => false
  end.

(** The capability name [_query_terminfo_database] asks [tput] for. *)
Definition capname_of (codename : string) : string :=
  match PyDict.get codename _codename_to_capname with
  | Some c => c
  | None => codename
  end.

(** What [_query_terminfo_database] makes of the answer of [tput]. *)
Definition query_outcome (P : Platform) (codename : string) : Res string :=
  match tput P (PyStr.split_ws (capname_of codename)) with
  | Completed 0 output => Ok output
  | Completed returncode _ =>
      if returncode =? 1 then Ok EmptyString else Raise (CalledProcessError returncode)
  | NotStarted => Raise FileNotFoundError
  end.

(** Whether [_init_terminal_codes] queries the codename at all, for the
    number of colours [supported_colors]. *)
Definition is_queried (supported_colors : Z) (codename : string) : bool :=
  negb (is_color_codename codename) || (supported_colors >=? 8).

(** The value the comprehension of [_init_terminal_codes] computes for a
    codename. *)
Definition code_for (P : Platform) (supported_colors : Z) (codename : string)
    : Res string :=
  if is_queried supported_colors codename
  then query_outcome P codename
  else Ok EmptyString.

(** A computation that, from a world satisfying [pre], only appends events
    accepted by [ok] to the log and leaves the rest of the world alone. *)
Definition appends {A : Type} (pre : World -> Prop) (ok : Event -> bool) (m : M A)
    : Prop :=
  forall w, pre w ->
    exists r evs, m w = (r, with_trace (trace w ++ evs) w) /\ forallb ok evs = true.

(** The same, and the computation returns. *)
Definition returns {A : Type} (pre : World -> Prop) (ok : Event -> bool) (m : M A)
    : Prop :=
  forall w, pre w ->
    exists a evs, m w = (Ok a, with_trace (trace w ++ evs) w) /\ forallb ok evs = true.

(** The precondition does not look at the log. *)
Definition ignores_trace (pre : World -> Prop) : Prop :=
  forall w t, pre w -> pre (with_trace t w).

(** The exceptions a failed capability query ends [_init_terminal_codes]
    with; none of them is caught by [main]. *)
Definition is_query_failure (e : Exn) : bool :=
  match e with
  | CalledProcessError returncode => negb (returncode =? 0) && negb (returncode =? 1)
  | FileNotFoundError => true
  | ValueError => true
  | _ => false
  end.

(** The world of a fresh process on the xterm-like terminal once the
    capability maps are built, and the same on the terminal without colours. *)
Definition xterm_world : World :=
  Eval vm_compute in snd (_init_terminal_codes linux_xterm (fresh_world cooked [])).

Definition vt100_world : World :=
  Eval vm_compute in snd (_init_terminal_codes linux_vt100 (fresh_world cooked [])).

(** A menu of three entries with the default cursor and styles. *)
Definition abc_menu (cycle_cursor : bool) : TerminalMenu :=
  mkTerminalMenu ["a"; "b"; "c"] None DEFAULT_MENU_CURSOR DEFAULT_MENU_CURSOR_STYLE
                 DEFAULT_MENU_HIGHLIGHT_STYLE cycle_cursor.



(** The [AttributeDict] that [parse_arguments] makes of a namespace. *)
Definition args_of (ns : Namespace) : Args :=
  mkArgs (ns_title ns) (ns_cursor ns)
         (style_option (ns_cursor_style ns))
         (style_option (ns_highlight_style ns))
         (ns_cycle ns) (ns_print_version ns) (ns_entries ns).

(** The instance attributes as [__init__] first sets them. *)
Definition new_object (w : World) : World :=
  with_new_term None (with_old_term None w).

(** The world after [_init_term] on a terminal whose configuration is the
    one of [w], and the world after the matching [_reset_term] once the
    events [mid] went by in between. *)
Definition entered (P : Platform) (d : PyDict.t) (w : World) : World :=
  mkWorld (raw_of P (tty_attrs w))
          (trace w ++ enter_events P d (tty_attrs w))
          (faults w) (_codename_to_terminal_code w) (_terminal_code_to_codename w)
          (Some (tty_attrs w)) (Some (raw_of P (tty_attrs w))).

Definition exited (P : Platform) (d : PyDict.t) (mid : list Event) (w : World) : World :=
  mkWorld (tty_attrs w)
          (trace w ++ enter_events P d (tty_attrs w) ++ mid ++ exit_events d (tty_attrs w))
          (faults w) (_codename_to_terminal_code w) (_terminal_code_to_codename w)
          (Some (tty_attrs w)) (Some (raw_of P (tty_attrs w))).

(** What [show] returns on a script: the outcome of the loop, with the
    interrupt turned into "no selection". *)
Definition interrupt_to_none (r : Res (option Z)) : Res (option Z) :=
  match r with
  | Raise KeyboardInterrupt => Ok None
  | _ => r
  end.

Definition show_result (self : TerminalMenu) (rev : PyDict.t) (script : list ReadEvent)
    : Res (option Z) :=
  interrupt_to_none (loop_outcome self rev script 0).

(** The two capability maps of [xterm_world]. *)
Definition xterm_codes : PyDict.t :=
  Eval vm_compute in
    match _codename_to_terminal_code xterm_world with Some d => d | None => [] end.

Definition xterm_rev : PyDict.t :=
  Eval vm_compute in
    match _terminal_code_to_codename xterm_world with Some d => d | None => [] end.

(** What the keys send in application mode. *)
Definition UP_KEY : ReadEvent := Chunk [x1b; x4f; x41].
Definition DOWN_KEY : ReadEvent := Chunk [x1b; x4f; x42].
Definition ENTER_KEY : ReadEvent := Chunk [x0a].
Definition ESCAPE_KEY : ReadEvent := Chunk [x1b].

(** The entries given on the command line, none when option parsing exits
    by itself. *)
Definition given_entries (argv : ParseArgs) : list string :=
  match argv with
  | Parsed ns => ns_entries ns
  | ArgparseExit _ => []
  end.

(** The run of [tput] that a query for the codename makes. *)
Definition tput_event (codename : string) : Event :=
  EvTput (PyStr.split_ws (capname_of codename)).

(** No string occurs twice in the list. *)
Fixpoint nodupb (l : list string) : bool :=
  match l with
  | [] => true
  | x :: rest => negb (str_in x rest) && nodupb rest
  end.

(** * Properties *)

Open Scope list_scope.

(** ** The transition function *)

Lemma handle_key_up (self : TerminalMenu) (i : Z) :
  handle_key self i "up" =
  Continue (if i - 1 <? 0
            then (if _cycle_cursor self then num_entries self - 1 else 0)
            else i - 1).
Proof.
  unfold handle_key. change (str_in "up" ["up"; "k"]) with true. cbv iota zeta.
  destruct (i - 1 <? 0); [destruct (_cycle_cursor self)|]; reflexivity.
Qed.

Lemma handle_key_down (self : TerminalMenu) (i : Z) :
  handle_key self i "down" =
  Continue (if i + 1 >=? num_entries self
            then (if _cycle_cursor self then 0 else num_entries self - 1)
            else i + 1).
Proof.
  unfold handle_key.
  change (str_in "down" ["up"; "k"]) with false.
  change (str_in "down" ["down"; "j"]) with true. cbv iota zeta.
  destruct (i + 1 >=? num_entries self); [destruct (_cycle_cursor self)|]; reflexivity.
Qed.

Lemma handle_key_in_range (self : TerminalMenu) (i j : Z) (next_key : string) :
  0 <= i < num_entries self ->
  handle_key self i next_key = Continue j ->
  0 <= j < num_entries self.
Proof.
  intros Hi. unfold handle_key.
  destruct (str_in next_key ["up"; "k"]).
  - cbv zeta. destruct (i - 1 <? 0) eqn:E.
    + destruct (_cycle_cursor self); intros [= <-]; lia.
    + intros [= <-]. apply Z.ltb_ge in E. lia.
  - destruct (str_in next_key ["down"; "j"]).
    + cbv zeta. destruct (i + 1 >=? num_entries self) eqn:E.
      * destruct (_cycle_cursor self); intros [= <-]; lia.
      * intros [= <-]. rewrite Z.geb_leb in E. apply Z.leb_gt in E. lia.
    + destruct (str_in next_key ["enter"]); [discriminate|].
      destruct (str_in next_key ["escape"]); [discriminate|].
      intros [= <-]. exact Hi.
Qed.

Lemma transition_in_range (self : TerminalMenu) (st : SelectionState) (ev : KeyEvent) :
  state_in_range self st -> state_in_range self (transition self st ev).
Proof.
  destruct st as [i| |]; simpl; auto.
  destruct ev as [k|]; simpl; auto.
  intros Hi. destruct (handle_key self i k) as [j|[j|]] eqn:E; simpl; auto.
  eapply handle_key_in_range; eauto.
Qed.

Lemma fold_transition_in_range (self : TerminalMenu) (evs : list KeyEvent) :
  forall st, state_in_range self st ->
             state_in_range self (fold_left (transition self) evs st).
Proof.
  induction evs as [|ev evs IH]; simpl; intros st Hst; [exact Hst|].
  apply IH. apply transition_in_range. exact Hst.
Qed.

(** C2: for a menu of N entries and an index i in [0, N), Up moves to
    i - 1, except at 0 where it wraps to N - 1 with cycling and stays at 0
    without; Down moves to i + 1, except at N - 1 where it wraps to 0 with
    cycling and stays at N - 1 without.  The session stays active. *)
Theorem C2_up_down_transition (self : TerminalMenu) (i : Z) :
  0 <= i < num_entries self ->
  transition self (Active i) (Key "up") =
    Active (if i =? 0
            then (if _cycle_cursor self then num_entries self - 1 else 0)
            else i - 1)
  /\ transition self (Active i) (Key "down") =
    Active (if i =? num_entries self - 1
            then (if _cycle_cursor self then 0 else num_entries self - 1)
            else i + 1).
Proof.
  intros Hi. unfold transition. rewrite handle_key_up, handle_key_down. split.
  - destruct (i =? 0) eqn:E0.
    + apply Z.eqb_eq in E0. subst i. reflexivity.
    + apply Z.eqb_neq in E0.
      destruct (i - 1 <? 0) eqn:E; [apply Z.ltb_lt in E; lia | reflexivity].
  - destruct (i =? num_entries self - 1) eqn:E0.
    + apply Z.eqb_eq in E0.
      destruct (i + 1 >=? num_entries self) eqn:E; [reflexivity|].
      rewrite Z.geb_leb in E. apply Z.leb_gt in E. lia.
    + apply Z.eqb_neq in E0.
      destruct (i + 1 >=? num_entries self) eqn:E; [|reflexivity].
      rewrite Z.geb_leb in E. apply Z.leb_le in E. lia.
Qed.

Lemma C2_witness :
  let self := mkTerminalMenu ["a"; "b"; "c"] None "> " [] [] true in
  transition self (Active 0) (Key "up") = Active 2
  /\ transition self (Active 2) (Key "down") = Active 0.
Proof.
  split.
  - apply (C2_up_down_transition (mkTerminalMenu ["a"; "b"; "c"] None "> " [] [] true) 0).
    unfold num_entries; simpl; lia.
  - apply (C2_up_down_transition (mkTerminalMenu ["a"; "b"; "c"] None "> " [] [] true) 2).
    unfold num_entries; simpl; lia.
Defined.

(** C3: for a menu of N >= 1 entries, whatever the key events, every active
    state reached from the initial index 0 has its index in [0, N). *)
Theorem C3_index_in_range (self : TerminalMenu) (evs : list KeyEvent) (i : Z) :
  1 <= num_entries self ->
  run_session self evs = Active i ->
  0 <= i < num_entries self.
Proof.
  intros HN Hrun.
  assert (H : state_in_range self (run_session self evs)).
  { apply fold_transition_in_range. simpl. lia. }
  rewrite Hrun in H. exact H.
Qed.

Lemma C3_witness :
  0 <= 1 < num_entries (mkTerminalMenu ["a"; "b"; "c"] None "> " [] [] true).
Proof.
  apply (C3_index_in_range (mkTerminalMenu ["a"; "b"; "c"] None "> " [] [] true)
           [Key "up"; Key "x"; Key "up"] 1).
  - unfold num_entries; simpl; lia.
  - vm_compute. reflexivity.
Defined.

(** C5 as amended: a decoded key other than up, k, down, j, enter and escape
    changes nothing: the index is the same and the session stays active. *)
Theorem C5_other_keys_ignored (self : TerminalMenu) (i : Z) (next_key : string) :
  str_in next_key ["up"; "k"; "down"; "j"; "enter"; "escape"] = false ->
  handle_key self i next_key = Continue i
  /\ transition self (Active i) (Key next_key) = Active i.
Proof.
  intros H. unfold str_in in H. simpl in H.
  repeat (apply orb_false_iff in H; destruct H as [? H]).
  assert (E : handle_key self i next_key = Continue i).
  { unfold handle_key, str_in. simpl.
    repeat match goal with
           | Hk : (next_key =? _)%string = false |- _ => rewrite Hk; clear Hk
           end.
    reflexivity. }
  split; [exact E|]. simpl. rewrite E. reflexivity.
Qed.

Lemma C5_witness :
  handle_key (mkTerminalMenu ["a"; "b"; "c"] None "> " [] [] true) 1 "x" = Continue 1
  /\ transition (mkTerminalMenu ["a"; "b"; "c"] None "> " [] [] true) (Active 1) (Key "x")
     = Active 1.
Proof.
  apply (C5_other_keys_ignored (mkTerminalMenu ["a"; "b"; "c"] None "> " [] [] true) 1 "x").
  vm_compute. reflexivity.
Defined.

(** ** Dictionaries *)

Section DictFacts.

Implicit Types (d acc : PyDict.t) (k v s c : string).

Lemma dict_get_set k k' v d :
  PyDict.get k (PyDict.set k' v d) = if String.eqb k k' then Some v else PyDict.get k d.
Proof.
  induction d as [|[k0 v0] d IH]; simpl.
  - reflexivity.
  - destruct (String.eqb_spec k' k0) as [->|Hne]; simpl.
    + destruct (String.eqb k k0); reflexivity.
    + rewrite IH. destruct (String.eqb_spec k k0) as [->|Hne'].
      * destruct (String.eqb_spec k0 k') as [->|_]; [congruence | reflexivity].
      * reflexivity.
Qed.

Lemma dict_mem_set k k' v d :
  PyDict.mem k (PyDict.set k' v d) = String.eqb k k' || PyDict.mem k d.
Proof.
  unfold PyDict.mem. rewrite dict_get_set. destruct (String.eqb k k'); reflexivity.
Qed.

Lemma dict_get_In k v d : PyDict.get k d = Some v -> In (k, v) d.
Proof.
  induction d as [|[k0 v0] d IH]; simpl; [discriminate|].
  destruct (String.eqb_spec k k0) as [->|Hne].
  - intros [= ->]. left. reflexivity.
  - intros H. right. apply IH, H.
Qed.

Lemma dict_get_None_keys k d : PyDict.get k d = None -> ~ In k (PyDict.keys d).
Proof.
  induction d as [|[k0 v0] d IH]; simpl; [tauto|].
  destruct (String.eqb_spec k k0) as [->|Hne]; [discriminate|].
  intros H [E|Hin]; [congruence | exact (IH H Hin)].
Qed.

Lemma dict_In_get k v d :
  NoDup (PyDict.keys d) -> In (k, v) d -> PyDict.get k d = Some v.
Proof.
  induction d as [|[k0 v0] d IH]; simpl; [tauto|].
  intros Hnd [E|Hin]; inversion Hnd as [|? ? Hnotin Hnd']; subst.
  - inversion E; subst. rewrite String.eqb_refl. reflexivity.
  - destruct (String.eqb_spec k k0) as [->|Hne].
    + exfalso. apply Hnotin. change k0 with (fst (k0, v)). apply in_map, Hin.
    + apply IH; assumption.
Qed.

Lemma dict_keys_set k v d :
  PyDict.keys (PyDict.set k v d) =
  if PyDict.mem k d then PyDict.keys d else (PyDict.keys d ++ [k])%list.
Proof.
  unfold PyDict.mem.
  induction d as [|[k0 v0] d IH]; simpl; [reflexivity|].
  destruct (String.eqb_spec k k0) as [->|Hne]; simpl; [reflexivity|].
  rewrite IH. destruct (PyDict.get k d); reflexivity.
Qed.

Lemma dict_set_NoDup k v d :
  NoDup (PyDict.keys d) -> NoDup (PyDict.keys (PyDict.set k v d)).
Proof.
  intros Hnd. rewrite dict_keys_set. unfold PyDict.mem.
  destruct (PyDict.get k d) eqn:E; [exact Hnd|].
  apply NoDup_app; [exact Hnd | repeat constructor; simpl; tauto |].
  intros x Hx [<-|[]]. exact (dict_get_None_keys _ _ E Hx).
Qed.

Lemma dict_update_NoDup d e :
  NoDup (PyDict.keys d) -> NoDup (PyDict.keys (PyDict.update d e)).
Proof.
  unfold PyDict.update. revert d.
  induction e as [|[k v] e IH]; simpl; intros d Hnd; [exact Hnd|].
  apply IH, dict_set_NoDup, Hnd.
Qed.

Lemma dict_update_mem k d e :
  PyDict.mem k d = true -> PyDict.mem k (PyDict.update d e) = true.
Proof.
  unfold PyDict.update. revert d.
  induction e as [|[k0 v0] e IH]; simpl; intros d H; [exact H|].
  apply IH. rewrite dict_mem_set, H. apply orb_true_r.
Qed.

Lemma dict_update_get_other k d e :
  PyDict.mem k e = false -> PyDict.get k (PyDict.update d e) = PyDict.get k d.
Proof.
  unfold PyDict.update, PyDict.mem. revert d.
  induction e as [|[k0 v0] e IH]; simpl; intros d H; [reflexivity|].
  destruct (String.eqb_spec k k0) as [->|Hne]; [discriminate|].
  rewrite IH by exact H. rewrite dict_get_set.
  destruct (String.eqb_spec k k0); [congruence | reflexivity].
Qed.

Lemma invert_fold_sound s c (l : PyDict.t) :
  forall acc,
    PyDict.get s (fold_left invert_step l acc) = Some c ->
    PyDict.get s acc = Some c \/ In (c, s) l.
Proof.
  induction l as [|[k v] l IH]; simpl; intros acc H; [left; exact H|].
  destruct (IH _ H) as [H1|H1]; [|right; right; exact H1].
  unfold invert_step in H1. simpl in H1. rewrite dict_get_set in H1.
  destruct (String.eqb_spec s v) as [->|Hne].
  - inversion H1; subst. right. left. reflexivity.
  - left. exact H1.
Qed.

Lemma invert_fold_keeps s (l : PyDict.t) :
  (forall kv, In kv l -> snd kv <> s) ->
  forall acc, PyDict.get s (fold_left invert_step l acc) = PyDict.get s acc.
Proof.
  induction l as [|[k v] l IH]; simpl; intros Hl acc; [reflexivity|].
  rewrite IH by (intros kv Hkv; apply Hl; right; exact Hkv).
  unfold invert_step. simpl. rewrite dict_get_set.
  destruct (String.eqb_spec s v) as [->|Hne]; [|reflexivity].
  exfalso. apply (Hl (k, v)); [left; reflexivity | reflexivity].
Qed.

Lemma invert_fold_mono s (l : PyDict.t) :
  forall acc,
    PyDict.mem s acc = true -> PyDict.mem s (fold_left invert_step l acc) = true.
Proof.
  induction l as [|[k v] l IH]; simpl; intros acc H; [exact H|].
  apply IH. unfold invert_step. simpl. rewrite dict_mem_set, H. apply orb_true_r.
Qed.

Lemma invert_fold_defined s c (l : PyDict.t) :
  In (c, s) l ->
  forall acc, PyDict.mem s (fold_left invert_step l acc) = true.
Proof.
  induction l as [|[k v] l IH]; simpl; intros Hin acc; [tauto|].
  destruct Hin as [E|Hin]; [|apply IH, Hin].
  inversion E; subst. apply invert_fold_mono.
  unfold invert_step. simpl. rewrite dict_mem_set, String.eqb_refl. reflexivity.
Qed.

(** Looking up [s] in the inverted dictionary gives a key of [d] that maps to [s]. *)
Lemma invert_sound d s c :
  NoDup (PyDict.keys d) ->
  PyDict.get s (PyDict.invert d) = Some c -> PyDict.get c d = Some s.
Proof.
  intros Hnd H. apply dict_In_get; [exact Hnd|].
  destruct (invert_fold_sound s c d [] H) as [H1|H1]; [discriminate | exact H1].
Qed.

(** The last key of [d] that maps to [s] is the one the inverted dictionary
    holds for [s]. *)
Lemma invert_last (l1 l2 : PyDict.t) s c :
  (forall kv, In kv l2 -> snd kv <> s) ->
  PyDict.get s (PyDict.invert (l1 ++ (c, s) :: l2)%list) = Some c.
Proof.
  intros Hl2. unfold PyDict.invert.
  change (fun acc (kv : string * string) => PyDict.set (snd kv) (fst kv) acc)
    with invert_step.
  rewrite fold_left_app. simpl. rewrite invert_fold_keeps by exact Hl2.
  unfold invert_step at 1. simpl. rewrite dict_get_set, String.eqb_refl. reflexivity.
Qed.

End DictFacts.

(** ** The monad *)

Lemma with_trace_trace (t : list Event) (w : World) : trace (with_trace t w) = t.
Proof. reflexivity. Qed.

Lemma with_trace_twice (t1 t2 : list Event) (w : World) :
  with_trace t2 (with_trace t1 w) = with_trace t2 w.
Proof. reflexivity. Qed.

Lemma with_trace_same (w : World) : with_trace (trace w ++ []) w = w.
Proof. rewrite app_nil_r. destruct w; reflexivity. Qed.

Lemma bind_Ok {A B : Type} (m : M A) (k : A -> M B) (w w1 : World) (a : A) :
  m w = (Ok a, w1) -> bind m k w = k a w1.
Proof. intros H. unfold bind. rewrite H. reflexivity. Qed.

Lemma bind_Raise {A B : Type} (m : M A) (k : A -> M B) (w w1 : World) (e : Exn) :
  m w = (Raise e, w1) -> bind m k w = (Raise e, w1).
Proof. intros H. unfold bind. rewrite H. reflexivity. Qed.

Lemma bind_Blocked {A B : Type} (m : M A) (k : A -> M B) (w w1 : World) :
  m w = (Blocked, w1) -> bind m k w = (Blocked, w1).
Proof. intros H. unfold bind. rewrite H. reflexivity. Qed.

Lemma bind_Ok_inv {A B : Type} (m : M A) (k : A -> M B) (w w' : World) (b : B) :
  bind m k w = (Ok b, w') ->
  exists a w1, m w = (Ok a, w1) /\ k a w1 = (Ok b, w').
Proof.
  unfold bind. destruct (m w) as [[a|e|] w1]; try discriminate.
  intros H. exists a, w1. split; [reflexivity | exact H].
Qed.

Section Effects.

Variable pre : World -> Prop.
Variable ok : Event -> bool.
Hypothesis pre_ignores_trace : ignores_trace pre.

Lemma returns_appends {A : Type} (m : M A) : returns pre ok m -> appends pre ok m.
Proof.
  intros H w Hw. destruct (H w Hw) as (a & evs & E & Hev).
  exists (Ok a), evs. split; assumption.
Qed.

Lemma returns_ret {A : Type} (a : A) : returns pre ok (ret a).
Proof.
  intros w _. exists a, []. split; [|reflexivity].
  unfold ret. rewrite with_trace_same. reflexivity.
Qed.

Lemma returns_bind {A B : Type} (m : M A) (k : A -> M B) :
  returns pre ok m -> (forall a, returns pre ok (k a)) -> returns pre ok (bind m k).
Proof.
  intros Hm Hk w Hw.
  destruct (Hm w Hw) as (a & evs1 & E1 & Hev1).
  destruct (Hk a _ (pre_ignores_trace w (trace w ++ evs1)%list Hw)) as (b & evs2 & E2 & Hev2).
  exists b, (evs1 ++ evs2)%list. split.
  - rewrite (bind_Ok _ _ _ _ _ E1), E2.
    rewrite with_trace_trace, with_trace_twice, app_assoc. reflexivity.
  - rewrite forallb_app, Hev1, Hev2. reflexivity.
Qed.

Lemma appends_bind {A B : Type} (m : M A) (k : A -> M B) :
  appends pre ok m -> (forall a, appends pre ok (k a)) -> appends pre ok (bind m k).
Proof.
  intros Hm Hk w Hw.
  destruct (Hm w Hw) as (r & evs1 & E1 & Hev1).
  destruct r as [a|e|].
  - destruct (Hk a _ (pre_ignores_trace w (trace w ++ evs1)%list Hw)) as (r2 & evs2 & E2 & Hev2).
    exists r2, (evs1 ++ evs2)%list. split.
    + rewrite (bind_Ok _ _ _ _ _ E1), E2.
      rewrite with_trace_trace, with_trace_twice, app_assoc. reflexivity.
    + rewrite forallb_app, Hev1, Hev2. reflexivity.
  - exists (Raise e), evs1. split; [apply bind_Raise, E1 | exact Hev1].
  - exists Blocked, evs1. split; [apply bind_Blocked, E1 | exact Hev1].
Qed.

Lemma returns_when (b : bool) (m : M unit) :
  returns pre ok m -> returns pre ok (when b m).
Proof. intros H. destruct b; [exact H | apply returns_ret]. Qed.

Lemma returns_for_each {A : Type} (l : list A) (f : A -> M unit) :
  (forall x, In x l -> returns pre ok (f x)) -> returns pre ok (for_each l f).
Proof.
  induction l as [|x l IH]; simpl; intros H; [apply returns_ret|].
  apply returns_bind; [apply H; left; reflexivity|].
  intros _. apply IH. intros y Hy. apply H. right. exact Hy.
Qed.

Lemma returns_for_enumerate {A : Type} (l : list A) (f : Z -> A -> M unit) :
  (forall i x, returns pre ok (f i x)) ->
  forall i, returns pre ok (for_enumerate i l f).
Proof.
  intros H. induction l as [|x l IH]; simpl; intros i; [apply returns_ret|].
  apply returns_bind; [apply H|]. intros _. apply IH.
Qed.

Lemma appends_try_except {A : Type} (body : M A) (handler : Exn -> option (M A)) :
  appends pre ok body ->
  (forall e h, handler e = Some h -> appends pre ok h) ->
  appends pre ok (try_except body handler).
Proof.
  intros Hb Hh w Hw. unfold try_except.
  destruct (Hb w Hw) as (r & evs1 & E1 & Hev1). rewrite E1.
  destruct r as [a|e|].
  - exists (Ok a), evs1. split; [reflexivity | exact Hev1].
  - destruct (handler e) as [h|] eqn:Eh.
    + destruct (Hh e h Eh _ (pre_ignores_trace w (trace w ++ evs1)%list Hw))
        as (r2 & evs2 & E2 & Hev2).
      exists r2, (evs1 ++ evs2)%list. split.
      * rewrite E2, with_trace_trace, with_trace_twice, app_assoc. reflexivity.
      * rewrite forallb_app, Hev1, Hev2. reflexivity.
    + exists (Raise e), evs1. split; [reflexivity | exact Hev1].
  - exists Blocked, evs1. split; [reflexivity | exact Hev1].
Qed.

End Effects.

Lemma ignores_trace_True : ignores_trace (fun _ => True).
Proof. intros w t _. exact I. Qed.

Lemma ignores_trace_ready (d rev : PyDict.t) : ignores_trace (ready d rev).
Proof. intros w t H. exact H. Qed.

(** ** Capability queries *)

Section Queries.

Variable P : Platform.

Lemma check_output_tput_spec (args : list string) (w : World) :
  check_output_tput P args w =
  (match tput P args with
   | Completed 0 output => Ok output
   | Completed returncode _ => Raise (CalledProcessError returncode)
   | NotStarted => Raise FileNotFoundError
   end, with_trace (trace w ++ [EvTput args]) w).
Proof.
  unfold check_output_tput, bind, log.
  destruct (tput P args) as [[|p|p] output|]; reflexivity.
Qed.

Lemma query_spec (codename : string) (w : World) :
  _query_terminfo_database P codename w =
  (query_outcome P codename,
   with_trace (trace w ++ [EvTput (PyStr.split_ws (capname_of codename))]) w).
Proof.
  unfold _query_terminfo_database, try_except, query_outcome.
  fold (capname_of codename). rewrite check_output_tput_spec.
  destruct (tput P (PyStr.split_ws (capname_of codename))) as [[|p|p] output|];
    try reflexivity.
  destruct (Z.pos p =? 1); reflexivity.
Qed.

Lemma query_outcome_not_Blocked (codename : string) :
  query_outcome P codename <> Blocked.
Proof.
  unfold query_outcome.
  destruct (tput P _) as [[|p|p] output|]; try discriminate.
  destruct (Z.pos p =? 1); discriminate.
Qed.

Lemma code_for_not_Blocked (sc : Z) (codename : string) :
  code_for P sc codename <> Blocked.
Proof.
  unfold code_for. destruct (is_queried sc codename); [|discriminate].
  apply query_outcome_not_Blocked.
Qed.

(** One step of the comprehension. *)
Lemma code_step_spec (sc : Z) (codename : string) (w : World) :
  exists evs,
    (if negb (is_color_codename codename) || (sc >=? 8)
     then _query_terminfo_database P codename
     else ret EmptyString) w
    = (code_for P sc codename, with_trace (trace w ++ evs) w)
    /\ forallb is_tput_event evs = true.
Proof.
  unfold code_for, is_queried.
  destruct (negb (is_color_codename codename) || (sc >=? 8)).
  - eexists. rewrite query_spec. split; reflexivity.
  - exists []. unfold ret. rewrite with_trace_same. split; reflexivity.
Qed.

Lemma query_codenames_appends (sc : Z) (l : list string) :
  forall acc, appends (fun _ => True) is_tput_event (query_codenames P sc l acc).
Proof.
  induction l as [|c l IH]; simpl; intros acc.
  - apply returns_appends, returns_ret.
  - apply appends_bind; [apply ignores_trace_True | | intros a; apply IH].
    intros w _. destruct (code_step_spec sc c w) as (evs & E & Hev).
    exists (code_for P sc c), evs. split; assumption.
Qed.

Lemma query_codenames_Ok (sc : Z) (l : list string) :
  forall acc w d w',
    query_codenames P sc l acc w = (Ok d, w') ->
    (NoDup (PyDict.keys acc) -> NoDup (PyDict.keys d))
    /\ (forall c,
          In c l \/ (exists v, PyDict.get c acc = Some v /\ code_for P sc c = Ok v) ->
          exists v, PyDict.get c d = Some v /\ code_for P sc c = Ok v).
Proof.
  induction l as [|x l IH]; simpl; intros acc w d w' H.
  - inversion H; subst. split; [auto|]. intros c [[]|Hc]. exact Hc.
  - apply bind_Ok_inv in H. destruct H as (v & w1 & Hstep & Hrest).
    destruct (code_step_spec sc x w) as (evs & E & _).
    rewrite E in Hstep. inversion Hstep as [[Hv Hw1]]. clear Hstep E.
    destruct (IH _ _ _ _ Hrest) as [Hnd Hget]. split.
    + intros Hacc. apply Hnd, dict_set_NoDup, Hacc.
    + intros c Hc. apply Hget.
      destruct (String.eqb_spec c x) as [->|Hne].
      * right. exists v. rewrite dict_get_set, String.eqb_refl. auto.
      * destruct Hc as [[Hx|Hl]|(v0 & Hv0 & Hc0)]; [congruence | left; exact Hl |].
        right. exists v0. rewrite dict_get_set.
        destruct (String.eqb_spec c x); [congruence | auto].
Qed.

Lemma query_codenames_Raise (sc : Z) (l : list string) (c : string) (e0 : Exn) :
  In c l -> code_for P sc c = Raise e0 ->
  forall acc w, exists e w', query_codenames P sc l acc w = (Raise e, w').
Proof.
  induction l as [|x l IH]; simpl; intros Hin Hc acc w; [tauto|].
  destruct (code_step_spec sc x w) as (evs & E & _).
  destruct (code_for P sc x) as [v|e|] eqn:Ex.
  - destruct Hin as [->|Hin]; [congruence|].
    rewrite (bind_Ok _ _ _ _ _ E). apply IH; assumption.
  - exists e. eexists. apply bind_Raise, E.
  - exfalso. exact (code_for_not_Blocked sc x Ex).
Qed.

Lemma query_codenames_not_Blocked (sc : Z) (l : list string) :
  forall acc w w', query_codenames P sc l acc w <> (Blocked, w').
Proof.
  induction l as [|x l IH]; simpl; intros acc w w'; [discriminate|].
  destruct (code_step_spec sc x w) as (evs & E & _).
  destruct (code_for P sc x) as [v|e|] eqn:Ex.
  - rewrite (bind_Ok _ _ _ _ _ E). apply IH.
  - rewrite (bind_Raise _ _ _ _ _ E). discriminate.
  - exfalso. exact (code_for_not_Blocked sc x Ex).
Qed.

Lemma query_codenames_Raise_inv (sc : Z) (l : list string) :
  forall acc w e w',
    query_codenames P sc l acc w = (Raise e, w') ->
    exists c, In c l /\ code_for P sc c = Raise e.
Proof.
  induction l as [|x l IH]; simpl; intros acc w e w' H; [discriminate|].
  destruct (code_step_spec sc x w) as (evs & E & _).
  destruct (code_for P sc x) as [v|e0|] eqn:Ex.
  - rewrite (bind_Ok _ _ _ _ _ E) in H.
    destruct (IH _ _ _ _ H) as (c & Hc & Hcode). exists c. auto.
  - rewrite (bind_Raise _ _ _ _ _ E) in H. inversion H; subst. exists x. auto.
  - exfalso. exact (code_for_not_Blocked sc x Ex).
Qed.

End Queries.

(** ** Building the capability maps *)

Section InitCodes.

Variable P : Platform.

(** What [_init_terminal_codes] does in a process where the maps are not
    built yet: the three ways it can end. *)
Lemma init_codes_cases (w : World) :
  _codename_to_terminal_code w = None ->
  exists evs,
    forallb is_tput_event evs = true
    /\ ((exists e, _init_terminal_codes P w = (Raise e, with_trace (trace w ++ evs) w)
                   /\ (query_outcome P "colors" = Raise e
                       \/ (exists s, query_outcome P "colors" = Ok s
                                     /\ PyStr.to_int s = None /\ e = ValueError)
                       \/ (exists s sc c, query_outcome P "colors" = Ok s
                                          /\ PyStr.to_int s = Some sc
                                          /\ In c _codenames
                                          /\ code_for P sc c = Raise e)))
        \/ (exists s sc d0 w1,
               query_outcome P "colors" = Ok s
               /\ PyStr.to_int s = Some sc
               /\ query_codenames P sc _codenames []
                    (with_trace (trace w ++ [EvTput (PyStr.split_ws (capname_of "colors"))]) w)
                  = (Ok d0, w1)
               /\ w1 = with_trace (trace w ++ evs) w
               /\ _init_terminal_codes P w =
                  (Ok tt,
                   with_terminal_code_to_codename
                     (Some (PyDict.invert (PyDict.update d0 _name_to_control_character)))
                     (with_codename_to_terminal_code
                        (Some (PyDict.update d0 _name_to_control_character)) w1)))).
Proof.
  intros Hnone. unfold _init_terminal_codes. rewrite Hnone.
  set (ev0 := EvTput (PyStr.split_ws (capname_of "colors"))).
  set (w0 := with_trace (trace w ++ [ev0]) w).
  assert (Hq : _query_terminfo_database P "colors" w = (query_outcome P "colors", w0))
    by apply query_spec.
  destruct (query_outcome P "colors") as [s|e|] eqn:Eq.
  - rewrite (bind_Ok _ _ _ _ _ Hq).
    destruct (PyStr.to_int s) as [sc|] eqn:Ei.
    + rewrite (bind_Ok (ret sc) _ w0 w0 sc eq_refl).
      destruct (query_codenames_appends P sc _codenames [] w0 I) as (r & evs & E & Hev).
      exists (ev0 :: evs). split; [simpl; exact Hev|].
      assert (Ew : with_trace (trace w0 ++ evs) w0 = with_trace (trace w ++ ev0 :: evs) w).
      { unfold w0. rewrite with_trace_trace, with_trace_twice, <- app_assoc. reflexivity. }
      rewrite Ew in E.
      destruct r as [d0|e|].
      * right. exists s, sc, d0, (with_trace (trace w ++ ev0 :: evs) w).
        rewrite (bind_Ok _ _ _ _ _ E). repeat split; auto.
      * left. exists e. rewrite (bind_Raise _ _ _ _ _ E).
        split; [reflexivity|]. right. right.
        destruct (query_codenames_Raise_inv P sc _codenames _ _ _ _ E) as (c & Hc & Hcode).
        exists s, sc, c. auto.
      * exfalso. exact (query_codenames_not_Blocked P sc _codenames _ _ _ E).
    + exists [ev0]. split; [reflexivity|].
      left. exists ValueError.
      rewrite (bind_Raise (raise ValueError) _ w0 w0 ValueError eq_refl).
      split; [reflexivity|]. right. left. exists s. auto.
  - exists [ev0]. split; [reflexivity|].
    left. exists e. rewrite (bind_Raise _ _ _ _ _ Hq).
    split; [reflexivity|]. left. reflexivity.
  - exfalso. exact (query_outcome_not_Blocked P "colors" Eq).
Qed.

End InitCodes.

Lemma codename_not_control (c : string) :
  In c _codenames -> PyDict.mem c _name_to_control_character = false.
Proof.
  intros H. unfold _codenames in H. simpl in H.
  repeat (destruct H as [<-|H]; [reflexivity|]). destruct H.
Qed.

Lemma codename_is_known (c : string) :
  In c _codenames -> PyDict.mem c _codename_to_capname = true.
Proof.
  intros H. unfold _codenames in H. simpl in H.
  repeat (destruct H as [<-|H]; [reflexivity|]). destruct H.
Qed.

Lemma known_is_codename (c : string) :
  PyDict.mem c _codename_to_capname = true -> In c _codenames.
Proof.
  unfold PyDict.mem. intros H.
  destruct (PyDict.get c _codename_to_capname) as [v|] eqn:E; [|discriminate].
  apply dict_get_In in E. unfold _codenames, PyDict.keys.
  change c with (fst (c, v)). apply in_map, E.
Qed.

Section InitCodesFacts.

Variable P : Platform.

Lemma query_outcome_Raise_kind (c : string) (e : Exn) :
  query_outcome P c = Raise e -> is_query_failure e = true.
Proof.
  unfold query_outcome.
  destruct (tput P _) as [[|p|p] output|]; try discriminate.
  - destruct (Z.pos p =? 1) eqn:E1; [discriminate|].
    intros [= <-]. unfold is_query_failure. rewrite E1. reflexivity.
  - intros [= <-]. reflexivity.
  - intros [= <-]. reflexivity.
Qed.

Lemma code_for_Raise_kind (sc : Z) (c : string) (e : Exn) :
  code_for P sc c = Raise e -> is_query_failure e = true.
Proof.
  unfold code_for. destruct (is_queried sc c); [|discriminate].
  apply query_outcome_Raise_kind.
Qed.

(** A successful [_init_terminal_codes], in a process where the maps are not
    built yet. *)
Lemma init_codes_Ok (w w' : World) :
  _codename_to_terminal_code w = None ->
  _init_terminal_codes P w = (Ok tt, w') ->
  exists s sc d evs,
    query_outcome P "colors" = Ok s
    /\ PyStr.to_int s = Some sc
    /\ forallb is_tput_event evs = true
    /\ NoDup (PyDict.keys d)
    /\ (forall c, In c _codenames ->
                  exists v, PyDict.get c d = Some v /\ code_for P sc c = Ok v)
    /\ w' = with_terminal_code_to_codename (Some (PyDict.invert d))
              (with_codename_to_terminal_code (Some d)
                 (with_trace (trace w ++ evs) w)).
Proof.
  intros Hnone H.
  destruct (init_codes_cases P w Hnone) as (evs & Hev & [(e & E & _)|Hok]).
  - rewrite E in H. discriminate.
  - destruct Hok as (s & sc & d0 & w1 & Hq & Hi & Hqc & Hw1 & E).
    rewrite E in H. inversion H as [Hw']. clear H.
    destruct (query_codenames_Ok P sc _codenames _ _ _ _ Hqc) as [Hnd Hget].
    exists s, sc, (PyDict.update d0 _name_to_control_character), evs.
    repeat split; auto.
    + apply dict_update_NoDup, Hnd. constructor.
    + intros c Hc. destruct (Hget c (or_introl Hc)) as (v & Hv & Hcode).
      exists v. split; [|exact Hcode].
      rewrite dict_update_get_other; [exact Hv | apply codename_not_control, Hc].
    + rewrite Hw1. reflexivity.
Qed.

(** Any failure of [_init_terminal_codes] is a query failure and leaves
    everything but the log as it was. *)
Lemma init_codes_Raise_inv (w w' : World) (e : Exn) :
  _codename_to_terminal_code w = None ->
  _init_terminal_codes P w = (Raise e, w') ->
  is_query_failure e = true
  /\ exists evs, forallb is_tput_event evs = true
                 /\ w' = with_trace (trace w ++ evs) w.
Proof.
  intros Hnone H.
  destruct (init_codes_cases P w Hnone) as (evs & Hev & [(e' & E & Hwhy)|Hok]).
  - rewrite E in H. inversion H; subst. split; [|exists evs; auto].
    destruct Hwhy as [Hq|[(s & _ & _ & ->)|(s & sc & c & _ & _ & _ & Hc)]].
    + eapply query_outcome_Raise_kind, Hq.
    + reflexivity.
    + eapply code_for_Raise_kind, Hc.
  - destruct Hok as (s & sc & d0 & w1 & _ & _ & _ & _ & E). rewrite E in H. discriminate.
Qed.


End InitCodesFacts.

(** ** The reverse capability map *)

(** C10 as amended: for the maps [_init_terminal_codes] builds, every known
    codename has an entry in the forward map; a sequence found in the
    reverse map resolves back to itself through the forward map; the
    reverse map holds the sequence of every codename, under the codename
    that comes last in the forward map among those sharing the sequence, so
    it gives the codename back when no other codename shares its sequence. *)
Theorem C10_reverse_lookup (P : Platform) (w w' : World) :
  _codename_to_terminal_code w = None ->
  _init_terminal_codes P w = (Ok tt, w') ->
  exists d rev,
    _codename_to_terminal_code w' = Some d
    /\ _terminal_code_to_codename w' = Some rev
    /\ (forall c, In c _codenames -> PyDict.mem c d = true)
    /\ (forall s c, PyDict.get s rev = Some c -> PyDict.get c d = Some s)
    /\ (forall c s, PyDict.get c d = Some s ->
                    exists c', PyDict.get s rev = Some c' /\ PyDict.get c' d = Some s)
    /\ (forall l1 l2 c s,
          d = (l1 ++ (c, s) :: l2)%list ->
          (forall kv, In kv l2 -> snd kv <> s) ->
          PyDict.get s rev = Some c)
    /\ (forall c s, PyDict.get c d = Some s ->
                    (forall c', PyDict.get c' d = Some s -> c' = c) ->
                    PyDict.get s rev = Some c).
Proof.
  intros Hnone H.
  destruct (init_codes_Ok P w w' Hnone H) as (s0 & sc & d & evs & _ & _ & _ & Hnd & Hget & ->).
  exists d, (PyDict.invert d).
  assert (Hdef : forall c s, PyDict.get c d = Some s ->
                 exists c', PyDict.get s (PyDict.invert d) = Some c'
                            /\ PyDict.get c' d = Some s).
  { intros c s Hc. apply dict_get_In in Hc.
    pose proof (invert_fold_defined s c d Hc []) as Hm.
    unfold PyDict.mem in Hm. fold (PyDict.invert d) in Hm.
    change (fold_left invert_step d []) with (PyDict.invert d) in Hm.
    destruct (PyDict.get s (PyDict.invert d)) as [c'|] eqn:E; [|discriminate].
    exists c'. split; [reflexivity|]. apply invert_sound; assumption. }
  repeat split.
  - intros c Hc. destruct (Hget c Hc) as (v & Hv & _). unfold PyDict.mem. rewrite Hv. reflexivity.
  - intros s c. apply invert_sound, Hnd.
  - exact Hdef.
  - intros l1 l2 c s -> Hl2. apply invert_last, Hl2.
  - intros c s Hc Huniq. destruct (Hdef c s Hc) as (c' & Hrev & Hfwd).
    rewrite (Huniq c' Hfwd) in Hrev. exact Hrev.
Qed.

Lemma C10_witness :
  exists d rev,
    _codename_to_terminal_code xterm_world = Some d
    /\ _terminal_code_to_codename xterm_world = Some rev
    /\ (forall s c, PyDict.get s rev = Some c -> PyDict.get c d = Some s).
Proof.
  destruct (C10_reverse_lookup linux_xterm (fresh_world cooked []) xterm_world
              eq_refl eq_refl)
    as (d & rev & Hd & Hr & _ & Hs & _).
  exists d, rev. auto.
Defined.

(** C10 as stated fails on an xterm: cursor_down resolves to the line feed,
    and the reverse map gives enter for the line feed. *)
Lemma C10_counterexample :
  _init_terminal_codes linux_xterm (fresh_world cooked []) = (Ok tt, xterm_world)
  /\ exists d rev,
       _codename_to_terminal_code xterm_world = Some d
       /\ _terminal_code_to_codename xterm_world = Some rev
       /\ ~ (forall c, In c _codenames ->
             forall s, PyDict.get c d = Some s -> PyDict.get s rev = Some c).
Proof.
  split; [vm_compute; reflexivity|].
  eexists. eexists. split; [reflexivity|]. split; [reflexivity|].
  intros H.
  assert (Hin : In "cursor_down" _codenames).
  { unfold _codenames. simpl. repeat ((left; reflexivity) || right). }
  specialize (H "cursor_down" Hin LF eq_refl).
  vm_compute in H. discriminate H.
Qed.

(** ** Construction and the command line *)

Lemma filter_negb_nil {A : Type} (f : A -> bool) (l : list A) :
  filter (fun x => negb (f x)) l = [] <-> forallb f l = true.
Proof.
  induction l as [|x l IH]; simpl; [tauto|].
  destruct (f x); simpl; [exact IH|]. split; discriminate.
Qed.

Lemma check_styles_valid (self : TerminalMenu) (w : World) :
  valid_styles self = true -> _check_for_valid_styles self w = (Ok tt, w).
Proof.
  intros H. unfold _check_for_valid_styles.
  apply filter_negb_nil in H. unfold valid_styles in H. rewrite H. reflexivity.
Qed.

Lemma check_styles_invalid (self : TerminalMenu) (w : World) :
  valid_styles self = false ->
  exists msg, _check_for_valid_styles self w = (Raise (InvalidStyleError msg), w).
Proof.
  intros H. unfold _check_for_valid_styles.
  destruct (filter _ (_menu_cursor_style self ++ _menu_highlight_style self))
    as [|x [|y l]] eqn:E.
  - apply filter_negb_nil in E. unfold valid_styles in H. congruence.
  - eexists. reflexivity.
  - eexists. reflexivity.
Qed.

Lemma valid_styles_false_iff (self : TerminalMenu) :
  valid_styles self = false <->
  exists style,
    In style (_menu_cursor_style self ++ _menu_highlight_style self)
    /\ PyDict.mem style _codename_to_capname = false.
Proof.
  unfold valid_styles. split.
  - intros H. induction (_menu_cursor_style self ++ _menu_highlight_style self)
      as [|x l IH]; simpl in *; [discriminate|].
    destruct (PyDict.mem x _codename_to_capname) eqn:E.
    + destruct (IH H) as (s & Hs & Hm). exists s. auto.
    + exists x. auto.
  - intros (s & Hs & Hm).
    destruct (forallb _ _) eqn:E; [|reflexivity].
    rewrite forallb_forall in E. rewrite (E s Hs) in Hm. discriminate.
Qed.

Section Construction.

Variable P : Platform.

Lemma init_object_invalid (menu_entries : list string) (title : option string)
    (menu_cursor : option string) (cs hs : option (list string)) (cycle_cursor : bool)
    (w : World) :
  (exists style, In style (styles_of cs ++ styles_of hs)
                 /\ PyDict.mem style _codename_to_capname = false) ->
  exists msg,
    __init__ P menu_entries title menu_cursor cs hs cycle_cursor w
    = (Raise (InvalidStyleError msg), new_object w).
Proof.
  intros Hbad. unfold __init__.
  set (self := mkTerminalMenu _ _ _ _ _ _).
  rewrite (bind_Ok _ _ w (new_object w) tt eq_refl).
  assert (Hv : valid_styles self = false).
  { apply valid_styles_false_iff. exact Hbad. }
  destruct (check_styles_invalid self (new_object w) Hv) as (msg & E).
  exists msg. apply bind_Raise, E.
Qed.

Lemma init_object_valid (menu_entries : list string) (title : option string)
    (menu_cursor : option string) (cs hs : option (list string)) (cycle_cursor : bool)
    (w : World) :
  let self :=
    mkTerminalMenu menu_entries title
      (match menu_cursor with Some c => c | None => EmptyString end)
      (styles_of cs) (styles_of hs) cycle_cursor in
  valid_styles self = true ->
  __init__ P menu_entries title menu_cursor cs hs cycle_cursor w
  = (_init_terminal_codes P ;; ret self) (new_object w).
Proof.
  intros self Hv. unfold __init__.
  rewrite (bind_Ok _ _ w (new_object w) tt eq_refl).
  rewrite (bind_Ok _ _ _ _ _ (check_styles_valid self (new_object w) Hv)).
  reflexivity.
Qed.

Lemma parse_arguments_Ok (ns : Namespace) (w : World) :
  ns_print_version ns = true \/ is_empty (ns_entries ns) = false ->
  try_except (parse_arguments (Parsed ns)) on_parse_error w = (Ok (args_of ns), w).
Proof.
  intros H. unfold try_except, parse_arguments.
  rewrite (bind_Ok (ret ns) _ w w ns eq_refl). unfold args_of.
  destruct H as [H|H]; rewrite H; simpl; [reflexivity|].
  rewrite andb_false_r. reflexivity.
Qed.

(** [main] on the path that builds a menu. *)
Lemma main_menu_path (prog : string) (ns : Namespace) (script : list ReadEvent)
    (w : World) :
  ns_print_version ns = false ->
  is_empty (ns_entries ns) = false ->
  main P prog (Parsed ns) script w =
  (terminal_menu <-
     try_except
       (__init__ P (ns_entries ns) (ns_title ns) (Some (ns_cursor ns))
                 (style_option (ns_cursor_style ns))
                 (style_option (ns_highlight_style ns)) (ns_cycle ns))
       (on_InvalidStyleError) ;;
   chosen_entry <- show P terminal_menu script ;;
   match chosen_entry with
   | None => raise (SystemExit 0)
   | Some i => raise (SystemExit (i + 1))
   end) w.
Proof.
  intros Hv He. unfold main.
  rewrite (bind_Ok _ _ _ _ _ (parse_arguments_Ok ns w (or_intror He))).
  simpl. rewrite Hv. reflexivity.
Qed.

End Construction.

(** C7: when a requested cursor or highlight style is not a known codename,
    constructing the menu raises InvalidStyleError with the terminal
    attributes neither read nor set (no effect is logged at all), and a
    run of [main] with such styles ends with exit code 0, having only
    printed the message to standard error. *)
Theorem C7_invalid_style (P : Platform) :
  (forall menu_entries title menu_cursor cs hs cycle_cursor w,
      (exists style, In style (styles_of cs ++ styles_of hs)
                     /\ PyDict.mem style _codename_to_capname = false) ->
      exists msg w',
        __init__ P menu_entries title menu_cursor cs hs cycle_cursor w
        = (Raise (InvalidStyleError msg), w')
        /\ tty_attrs w' = tty_attrs w
        /\ trace w' = trace w)
  /\ (forall prog ns script w,
        ns_print_version ns = false ->
        is_empty (ns_entries ns) = false ->
        (exists style,
            In style (styles_of (style_option (ns_cursor_style ns))
                      ++ styles_of (style_option (ns_highlight_style ns)))
            /\ PyDict.mem style _codename_to_capname = false) ->
        exists msg w',
          main P prog (Parsed ns) script w = (Raise (SystemExit 0), w')
          /\ tty_attrs w' = tty_attrs w
          /\ trace w' = trace w ++ [EvStderr msg; EvStderr LF]).
Proof.
  split.
  - intros menu_entries title menu_cursor cs hs cycle_cursor w Hbad.
    destruct (init_object_invalid P menu_entries title menu_cursor cs hs cycle_cursor w Hbad)
      as (msg & E).
    exists msg, (new_object w). repeat split. exact E.
  - intros prog ns script w Hv He Hbad.
    rewrite (main_menu_path P prog ns script w Hv He).
    destruct (init_object_invalid P (ns_entries ns) (ns_title ns) (Some (ns_cursor ns))
                (style_option (ns_cursor_style ns)) (style_option (ns_highlight_style ns))
                (ns_cycle ns) w Hbad) as (msg & E).
    exists msg. eexists. split.
    + apply bind_Raise. unfold try_except. rewrite E. simpl. reflexivity.
    + split; [reflexivity|]. simpl. rewrite <- app_assoc. reflexivity.
Qed.

Lemma C7_witness :
  exists msg w',
    main linux_xterm "simple-term-menu"
         (Parsed (mkNamespace None "> " "fg_red,blinking" "standout" true false ["a"; "b"]))
         [] (fresh_world cooked [])
    = (Raise (SystemExit 0), w')
    /\ tty_attrs w' = cooked
    /\ trace w' = [EvStderr msg; EvStderr LF].
Proof.
  destruct (C7_invalid_style linux_xterm) as [_ H].
  apply (H "simple-term-menu"
           (mkNamespace None "> " "fg_red,blinking" "standout" true false ["a"; "b"])
           [] (fresh_world cooked []) eq_refl eq_refl).
  exists "blinking". split; [|reflexivity].
  simpl. right. left. reflexivity.
Defined.

(** ** Capability queries *)




(** ** Reading a key *)

Lemma decode_ascii_total (bytes : list byte) :
  Forall (fun b => (Byte.to_N b < 128)%N) bytes ->
  decode_ascii bytes = Some (string_of_list_byte bytes).
Proof.
  induction 1 as [|b bytes Hb _ IH]; simpl; [reflexivity|].
  apply N.ltb_lt in Hb. rewrite Hb, IH. reflexivity.
Qed.

Lemma read_next_key_spec (ev : ReadEvent) (rev : PyDict.t) (w : World) :
  _terminal_code_to_codename w = Some rev ->
  _read_next_key ev true w =
  (match event_of rev ev with
   | Some (Key next_key) => Ok next_key
   | Some ExternalInterrupt => Raise KeyboardInterrupt
   | None => Raise UnicodeDecodeError
   end,
   match ev with
   | Chunk bytes => with_trace (trace w ++ [EvRead bytes]) w
   | Interrupt => w
   end).
Proof.
  intros Hrev. destruct ev as [bytes|]; [|reflexivity].
  unfold _read_next_key, event_of, key_of_code, os_read, bind, log, ret, raise. simpl.
  destruct (decode_ascii bytes) as [code|]; simpl; [|reflexivity].
  rewrite Hrev. destruct (PyDict.get code rev); reflexivity.
Qed.

(** C9 as amended: for a chunk of ASCII bytes (all below 128) the read
    returns a key and never raises: the codename the reverse map holds for
    the whole decoded chunk, else the decoded chunk itself, in lower case
    when case is to be ignored. *)
Theorem C9_read_next_key (bytes : list byte) (ignore_case : bool)
    (rev : PyDict.t) (w : World) :
  _terminal_code_to_codename w = Some rev ->
  Forall (fun b => (Byte.to_N b < 128)%N) bytes ->
  _read_next_key (Chunk bytes) ignore_case w =
  (Ok (match PyDict.get (string_of_list_byte bytes) rev with
       | Some codename => codename
       | None =>
           if ignore_case then PyStr.lower (string_of_list_byte bytes)
           else string_of_list_byte bytes
       end),
   with_trace (trace w ++ [EvRead bytes]) w).
Proof.
  intros Hrev Hascii.
  unfold _read_next_key, os_read, bind, log, ret. simpl.
  rewrite (decode_ascii_total bytes Hascii). simpl. rewrite Hrev.
  destruct (PyDict.get (string_of_list_byte bytes) rev); [reflexivity|].
  destruct ignore_case; reflexivity.
Qed.

Lemma C9_witness :
  _read_next_key (Chunk [x1b; x4f; x41]) true xterm_world =
    (Ok "up", with_trace (trace xterm_world ++ [EvRead [x1b; x4f; x41]]) xterm_world)
  /\ _read_next_key (Chunk [x51]) true xterm_world =
    (Ok "q", with_trace (trace xterm_world ++ [EvRead [x51]]) xterm_world).
Proof.
  split.
  - apply (C9_read_next_key [x1b; x4f; x41] true _ xterm_world eq_refl).
    repeat constructor.
  - apply (C9_read_next_key [x51] true _ xterm_world eq_refl).
    repeat constructor.
Defined.

(** C9 as stated fails: a chunk with a byte above 127, such as the two
    bytes of a UTF-8 letter, makes the read raise UnicodeDecodeError. *)
Lemma C9_counterexample :
  _read_next_key (Chunk [xc3; xa4]) true xterm_world
  = (Raise UnicodeDecodeError,
     with_trace (trace xterm_world ++ [EvRead [xc3; xa4]]) xterm_world)
  /\ ~ (forall bytes ignore_case,
          exists next_key w',
            _read_next_key (Chunk bytes) ignore_case xterm_world = (Ok next_key, w')).
Proof.
  split; [reflexivity|].
  intros H. destruct (H [xc3; xa4] true) as (k & w' & E).
  vm_compute in E. discriminate E.
Qed.

(** ** Painting the menu *)

Ltac in_codenames :=
  unfold _codenames; simpl; repeat ((left; reflexivity) || right).

Section ShowFacts.

Variable P : Platform.
Variables d rev : PyDict.t.
Variable self : TerminalMenu.
Hypothesis d_complete : has_codenames d = true.
Hypothesis styles_checked : valid_styles self = true.

Lemma codename_in_d (c : string) : In c _codenames -> PyDict.mem c d = true.
Proof.
  intros H. unfold has_codenames in d_complete.
  rewrite forallb_forall in d_complete. apply d_complete, H.
Qed.

Lemma style_in_d (style : string) :
  In style (_menu_cursor_style self ++ _menu_highlight_style self) ->
  PyDict.mem style d = true.
Proof.
  intros H. apply codename_in_d, known_is_codename.
  unfold valid_styles in styles_checked.
  rewrite forallb_forall in styles_checked. apply styles_checked, H.
Qed.

Lemma terminal_code_Ok (c : string) (w : World) :
  ready d rev w -> PyDict.mem c d = true ->
  terminal_code c w = (Ok (code_or_empty d c), w).
Proof.
  intros (_ & Hd & _) Hm. unfold terminal_code, code_or_empty, PyDict.mem in *.
  rewrite Hd. destruct (PyDict.get c d); [reflexivity | discriminate].
Qed.

Lemma stdout_write_Ok (s : string) (w : World) :
  ready d rev w -> stdout_write s w = (Ok tt, with_trace (trace w ++ [EvStdout s]) w).
Proof.
  intros (Hf & _). unfold stdout_write, bind, device_op, log. rewrite Hf. reflexivity.
Qed.

Lemma terminal_code_returns (c : string) :
  PyDict.mem c d = true -> returns (ready d rev) is_io_event (terminal_code c).
Proof.
  intros Hm w Hw. exists (code_or_empty d c), [].
  rewrite (terminal_code_Ok c w Hw Hm), with_trace_same. auto.
Qed.

Lemma stdout_write_returns (s : string) : returns (ready d rev) is_io_event (stdout_write s).
Proof.
  intros w Hw. exists tt, [EvStdout s]. rewrite (stdout_write_Ok s w Hw). auto.
Qed.

Lemma stdout_flush_returns : returns (ready d rev) is_io_event stdout_flush.
Proof.
  intros w (Hf & _). exists tt, [EvFlush].
  unfold stdout_flush, bind, device_op, log. rewrite Hf. auto.
Qed.

Lemma write_code_returns (c : string) :
  PyDict.mem c d = true ->
  returns (ready d rev) is_io_event (s <- terminal_code c ;; stdout_write s).
Proof.
  intros Hm. apply returns_bind; [apply ignores_trace_ready | |].
  - apply terminal_code_returns, Hm.
  - intros s. apply stdout_write_returns.
Qed.

Lemma py_print_returns (s : string) : returns (ready d rev) is_io_event (py_print s).
Proof.
  apply returns_bind; [apply ignores_trace_ready | apply stdout_write_returns |].
  intros _. apply stdout_write_returns.
Qed.

Ltac seq := apply returns_bind; [apply ignores_trace_ready | | intros ?].

Lemma print_menu_returns (selected_index : Z) (with_title : bool) :
  returns (ready d rev) is_io_event (print_menu self selected_index with_title).
Proof.
  unfold print_menu. seq.
  - destruct (_title self); [apply returns_when, py_print_returns | apply returns_ret].
  - seq.
    + apply returns_for_enumerate; [apply ignores_trace_ready|].
      intros i menu_entry. seq; [apply stdout_write_returns|].
      seq.
      { apply returns_when, returns_for_each; [apply ignores_trace_ready|].
        intros style Hs. apply write_code_returns, style_in_d, in_or_app. right. exact Hs. }
      seq; [apply stdout_write_returns|].
      seq.
      { apply returns_when, write_code_returns, codename_in_d. in_codenames. }
      apply returns_when, stdout_write_returns.
    + seq; [apply terminal_code_returns, codename_in_d; in_codenames|].
      apply stdout_write_returns.
Qed.

Lemma clear_menu_returns : returns (ready d rev) is_io_event (clear_menu self).
Proof.
  unfold clear_menu. seq.
  - destruct (_title self); [|apply returns_ret].
    seq; [apply terminal_code_returns, codename_in_d; in_codenames|].
    seq; [apply terminal_code_returns, codename_in_d; in_codenames|].
    apply stdout_write_returns.
  - seq; [apply terminal_code_returns, codename_in_d; in_codenames|].
    seq; [apply stdout_write_returns | apply stdout_flush_returns].
Qed.

Lemma position_cursor_returns (selected_index : Z) :
  returns (ready d rev) is_io_event (position_cursor self selected_index).
Proof.
  unfold position_cursor.
  seq; [apply terminal_code_returns, codename_in_d; in_codenames|].
  seq; [apply stdout_write_returns|].
  seq; [apply terminal_code_returns, codename_in_d; in_codenames|].
  seq; [apply stdout_write_returns|].
  seq; [apply terminal_code_returns, codename_in_d; in_codenames|].
  seq; [apply stdout_write_returns|].
  seq.
  { apply returns_for_each; [apply ignores_trace_ready|].
    intros style Hs. apply write_code_returns, style_in_d, in_or_app. left. exact Hs. }
  seq; [apply stdout_write_returns|].
  seq; [apply terminal_code_returns, codename_in_d; in_codenames|].
  seq; [apply stdout_write_returns|].
  seq; [apply terminal_code_returns, codename_in_d; in_codenames|].
  apply stdout_write_returns.
Qed.

End ShowFacts.

(** ** The loop of [show] *)

Lemma menu_loop_nil (self : TerminalMenu) (i : Z) :
  menu_loop self [] i = (position_cursor self i ;; blocked).
Proof. reflexivity. Qed.

Lemma menu_loop_cons (self : TerminalMenu) (ev : ReadEvent) (rest : list ReadEvent) (i : Z) :
  menu_loop self (ev :: rest) i =
  (position_cursor self i ;;
   next_key <- _read_next_key ev true ;;
   match handle_key self i next_key with
   | Break result => ret result
   | Continue j => print_menu self j false ;; menu_loop self rest j
   end).
Proof. reflexivity. Qed.

Section LoopFacts.

Variables d rev : PyDict.t.
Variable self : TerminalMenu.
Hypothesis d_complete : has_codenames d = true.
Hypothesis styles_checked : valid_styles self = true.

(** The loop ends the way [loop_outcome] says, having only written to
    standard output and read the terminal. *)
Lemma menu_loop_spec (script : list ReadEvent) :
  forall i w,
    ready d rev w ->
    exists evs,
      menu_loop self script i w
      = (loop_outcome self rev script i, with_trace (trace w ++ evs) w)
      /\ forallb is_io_event evs = true.
Proof.
  induction script as [|ev rest IH]; intros i w Hw.
  - rewrite menu_loop_nil.
    destruct (position_cursor_returns d rev self d_complete styles_checked i w Hw)
      as (u & evs1 & E1 & Hev1).
    exists evs1. rewrite (bind_Ok _ _ _ _ _ E1). split; [reflexivity | exact Hev1].
  - rewrite menu_loop_cons.
    destruct (position_cursor_returns d rev self d_complete styles_checked i w Hw)
      as (u & evs1 & E1 & Hev1).
    rewrite (bind_Ok _ _ _ _ _ E1).
    set (w1 := with_trace (trace w ++ evs1) w).
    assert (Hw1 : ready d rev w1) by exact Hw.
    assert (Hrev : _terminal_code_to_codename w1 = Some rev) by apply Hw.
    pose proof (read_next_key_spec ev rev w1 Hrev) as E2.
    simpl loop_outcome.
    destruct ev as [bytes|].
    + destruct (event_of rev (Chunk bytes)) as [[k|]|] eqn:Eev.
      * rewrite (bind_Ok _ _ _ _ _ E2).
        set (w2 := with_trace (trace w1 ++ [EvRead bytes]) w1).
        destruct (handle_key self i k) as [j|result].
        -- destruct (print_menu_returns d rev self d_complete styles_checked j false w2 Hw)
             as (u' & evs3 & E3 & Hev3).
           rewrite (bind_Ok _ _ _ _ _ E3).
           destruct (IH j (with_trace (trace w2 ++ evs3) w2) Hw) as (evs4 & E4 & Hev4).
           exists (evs1 ++ [EvRead bytes] ++ evs3 ++ evs4). split.
           ++ rewrite E4. unfold w2, w1.
              rewrite !with_trace_trace, !with_trace_twice, <- !app_assoc. reflexivity.
           ++ rewrite !forallb_app, Hev1, Hev3, Hev4. reflexivity.
        -- exists (evs1 ++ [EvRead bytes]). split.
           ++ unfold ret, w2, w1.
              rewrite !with_trace_trace, !with_trace_twice, <- !app_assoc. reflexivity.
           ++ rewrite forallb_app, Hev1. reflexivity.
      * unfold event_of in Eev. destruct (decode_ascii bytes); discriminate.
      * rewrite (bind_Raise _ _ _ _ _ E2).
        exists (evs1 ++ [EvRead bytes]). split.
        -- unfold w1. rewrite !with_trace_trace, !with_trace_twice, <- !app_assoc. reflexivity.
        -- rewrite forallb_app, Hev1. reflexivity.
    + simpl in E2. rewrite (bind_Raise _ _ _ _ _ E2).
      exists evs1. split; [reflexivity | exact Hev1].
Qed.

Lemma fold_transition_Selected (evs : list KeyEvent) (i : Z) :
  fold_left (transition self) evs (Selected i) = Selected i.
Proof. induction evs; simpl; auto. Qed.

Lemma fold_transition_Cancelled (evs : list KeyEvent) :
  fold_left (transition self) evs Cancelled = Cancelled.
Proof. induction evs; simpl; auto. Qed.

(** Reads that keep the session active only move the index. *)
Lemma loop_outcome_app (pre : list ReadEvent) :
  forall (evs : list KeyEvent) (rest : list ReadEvent) (i j : Z),
    map (event_of rev) pre = map Some evs ->
    fold_left (transition self) evs (Active i) = Active j ->
    loop_outcome self rev (pre ++ rest) i = loop_outcome self rev rest j.
Proof.
  induction pre as [|ev pre IH]; intros evs rest i j Hmap Hfold.
  - destruct evs; [|discriminate]. simpl in Hfold. inversion Hfold. reflexivity.
  - destruct evs as [|kev evs]; [discriminate|].
    simpl in Hmap. inversion Hmap as [[Hev Hrest]]. clear Hmap.
    simpl. rewrite Hev. simpl in Hfold.
    destruct kev as [k|].
    + destruct (handle_key self i k) as [j'|[j'|]].
      * apply (IH evs); assumption.
      * rewrite fold_transition_Selected in Hfold. discriminate.
      * rewrite fold_transition_Cancelled in Hfold. discriminate.
    + rewrite fold_transition_Cancelled in Hfold. discriminate.
Qed.

Lemma handle_key_enter (i : Z) : handle_key self i "enter" = Break (Some i).
Proof. reflexivity. Qed.

Lemma handle_key_escape (i : Z) : handle_key self i "escape" = Break None.
Proof. reflexivity. Qed.

(** A script with a read that ends the session does not leave the loop
    blocked. *)
Lemma loop_outcome_ends (script : list ReadEvent) :
  existsb (ends_session rev) script = true ->
  forall i, loop_outcome self rev script i <> Blocked.
Proof.
  induction script as [|ev rest IH]; simpl; intros H i; [discriminate|].
  unfold ends_session in H.
  destruct (event_of rev ev) as [[k|]|]; try discriminate.
  destruct (handle_key self i k) as [j|r] eqn:Ek; [|discriminate].
  apply IH.
  destruct (str_in k ["enter"] || str_in k ["escape"]) eqn:Eend; [|exact H].
  exfalso. unfold str_in in Eend. simpl in Eend. rewrite !orb_false_r in Eend.
  apply orb_true_iff in Eend.
  destruct Eend as [E|E]; apply String.eqb_eq in E; subst k;
    [rewrite handle_key_enter in Ek | rewrite handle_key_escape in Ek]; discriminate.
Qed.

End LoopFacts.

(** ** Entering and leaving the terminal mode *)

Lemma get_code_or_empty (d : PyDict.t) (c : string) :
  PyDict.mem c d = true -> PyDict.get c d = Some (code_or_empty d c).
Proof.
  unfold PyDict.mem, code_or_empty. destruct (PyDict.get c d); [reflexivity | discriminate].
Qed.

Ltac run_prims :=
  cbv beta iota zeta delta
    [bind ret assert_codes tcgetattr tcsetattr device_op log terminal_code stdout_write
     with_tty_attrs with_trace with_old_term with_new_term with_faults
     faults trace tty_attrs _codename_to_terminal_code _terminal_code_to_codename
     _old_term _new_term].

Section TermMode.

Variable P : Platform.
Variables d rev : PyDict.t.
Hypothesis d_complete : has_codenames d = true.

Lemma init_term_Ok (w : World) :
  ready d rev w -> _init_term P w = (Ok tt, entered P d w).
Proof.
  intros (Hf & Hd & Hr). destruct w as [a t f cd cr o n]. simpl in *. subst.
  assert (H1 := get_code_or_empty d "enter_application_mode"
                  (codename_in_d d d_complete "enter_application_mode" ltac:(in_codenames))).
  assert (H2 := get_code_or_empty d "cursor_invisible"
                  (codename_in_d d d_complete "cursor_invisible" ltac:(in_codenames))).
  unfold _init_term. run_prims. rewrite H1. run_prims. rewrite H2. run_prims.
  unfold entered, enter_events, raw_of. simpl.
  rewrite <- !app_assoc. reflexivity.
Qed.

Lemma reset_term_Ok (w : World) (a : Termios) :
  ready d rev w -> _old_term w = Some a ->
  _reset_term w = (Ok tt, with_tty_attrs a (with_trace (trace w ++ exit_events d a) w)).
Proof.
  intros (Hf & Hd & Hr) Ho. destruct w as [a0 t f cd cr o n]. simpl in *. subst.
  assert (H1 := get_code_or_empty d "cursor_visible"
                  (codename_in_d d d_complete "cursor_visible" ltac:(in_codenames))).
  assert (H2 := get_code_or_empty d "exit_application_mode"
                  (codename_in_d d d_complete "exit_application_mode" ltac:(in_codenames))).
  unfold _reset_term. run_prims. rewrite H1. run_prims. rewrite H2. run_prims.
  unfold exit_events. simpl.
  rewrite <- !app_assoc. reflexivity.
Qed.

End TermMode.

(** ** [show] as a whole *)

Lemma try_finally_Blocked {A : Type} (body : M A) (fin : M unit) (w w1 : World) :
  body w = (Blocked, w1) -> try_finally body fin w = (Blocked, w1).
Proof. intros H. unfold try_finally. rewrite H. reflexivity. Qed.

Lemma try_finally_runs {A : Type} (body : M A) (fin : M unit) (w w1 w2 : World)
    (r : Res A) (u : unit) :
  body w = (r, w1) -> r <> Blocked -> fin w1 = (Ok u, w2) ->
  try_finally body fin w = (r, w2).
Proof.
  intros H Hr Hfin. unfold try_finally. rewrite H.
  destruct r; [| | congruence]; rewrite Hfin; reflexivity.
Qed.

Lemma try_except_interrupt (body : M (option Z)) (w w1 : World) (r : Res (option Z)) :
  body w = (r, w1) ->
  try_except body on_KeyboardInterrupt w =
  (interrupt_to_none r, w1).
Proof.
  intros H. unfold try_except. rewrite H.
  destruct r as [a|e|]; try reflexivity. destruct e; reflexivity.
Qed.

Section ShowSpec.

Variable P : Platform.
Variables d rev : PyDict.t.
Variable self : TerminalMenu.
Hypothesis d_complete : has_codenames d = true.
Hypothesis styles_checked : valid_styles self = true.

Lemma show_spec (script : list ReadEvent) (w : World) :
  ready d rev w ->
  exists mid,
    forallb is_io_event mid = true
    /\ show P self script w =
       (show_result self rev script,
        match show_result self rev script with
        | Blocked =>
            with_trace (trace w ++ enter_events P d (tty_attrs w) ++ mid) (entered P d w)
        | _ => exited P d mid w
        end).
Proof.
  intros Hw. unfold show.
  assert (Ha : assert_codes w = (Ok tt, w)).
  { unfold assert_codes. destruct Hw as (_ & Hd & _). rewrite Hd. reflexivity. }
  rewrite (bind_Ok _ _ _ _ _ Ha).
  rewrite (bind_Ok _ _ _ _ _ (init_term_Ok P d rev d_complete w Hw)).
  set (w1 := entered P d w).
  assert (Hw1 : ready d rev w1) by exact Hw.
  destruct (print_menu_returns d rev self d_complete styles_checked 0 true w1 Hw1)
    as (u & evs1 & E1 & Hev1).
  rewrite (bind_Ok _ _ _ _ _ E1).
  set (w2 := with_trace (trace w1 ++ evs1) w1).
  destruct (menu_loop_spec d rev self d_complete styles_checked script 0 w2 Hw1)
    as (evs2 & E2 & Hev2).
  set (w3 := with_trace (trace w2 ++ evs2) w2) in *.
  assert (E3 : try_except (menu_loop self script 0) on_KeyboardInterrupt w2
               = (show_result self rev script, w3))
    by exact (try_except_interrupt _ _ _ _ E2).
  destruct (show_result self rev script) as [result|e|] eqn:Er.
  - destruct (clear_menu_returns d rev self d_complete w3 Hw1) as (u' & evs3 & E4 & Hev3).
    set (w4 := with_trace (trace w3 ++ evs3) w3) in *.
    assert (E5 := reset_term_Ok d rev d_complete w4 (tty_attrs w) Hw1 eq_refl).
    exists (evs1 ++ evs2 ++ evs3). split.
    { rewrite !forallb_app, Hev1, Hev2, Hev3. reflexivity. }
    erewrite try_finally_runs; [| exact E3 | discriminate
                                | rewrite (bind_Ok _ _ _ _ _ E4); exact E5].
    f_equal. unfold exited, w4, w3, w2, w1, entered. destruct w. simpl.
    rewrite <- !app_assoc. reflexivity.
  - destruct (clear_menu_returns d rev self d_complete w3 Hw1) as (u' & evs3 & E4 & Hev3).
    set (w4 := with_trace (trace w3 ++ evs3) w3) in *.
    assert (E5 := reset_term_Ok d rev d_complete w4 (tty_attrs w) Hw1 eq_refl).
    exists (evs1 ++ evs2 ++ evs3). split.
    { rewrite !forallb_app, Hev1, Hev2, Hev3. reflexivity. }
    erewrite try_finally_runs; [| exact E3 | discriminate
                                | rewrite (bind_Ok _ _ _ _ _ E4); exact E5].
    f_equal. unfold exited, w4, w3, w2, w1, entered. destruct w. simpl.
    rewrite <- !app_assoc. reflexivity.
  - exists (evs1 ++ evs2). split.
    { rewrite forallb_app, Hev1, Hev2. reflexivity. }
    rewrite (try_finally_Blocked _ _ _ _ E3).
    f_equal. unfold w3, w2, w1, entered. destruct w. simpl.
    rewrite <- !app_assoc. reflexivity.
Qed.

End ShowSpec.





(** ** Selecting and cancelling *)

Section Outcomes.

Variable P : Platform.
Variables d rev : PyDict.t.
Variable self : TerminalMenu.
Hypothesis d_complete : has_codenames d = true.
Hypothesis styles_checked : valid_styles self = true.

(** [show] after reads that keep the session active and one last read. *)
Lemma show_after (pre : list ReadEvent) (evs : list KeyEvent) (last : ReadEvent)
    (i : Z) (w : World) (result : option Z) :
  ready d rev w ->
  map (event_of rev) pre = map Some evs ->
  run_session self evs = Active i ->
  interrupt_to_none (loop_outcome self rev [last] i) = Ok result ->
  exists mid,
    forallb is_io_event mid = true
    /\ show P self (pre ++ [last]) w = (Ok result, exited P d mid w).
Proof.
  intros Hw Hmap Hrun Hlast.
  destruct (show_spec P d rev self d_complete styles_checked (pre ++ [last]) w Hw)
    as (mid & Hmid & E).
  exists mid. split; [exact Hmid|].
  unfold show_result in E.
  rewrite (loop_outcome_app rev self pre evs [last] 0 i Hmap Hrun), Hlast in E.
  exact E.
Qed.

End Outcomes.

(** C6: when the reads before the last keep the session active and leave it
    at index i, and the last read is Enter, the state machine ends in
    Selected i and [show] returns i. *)
Theorem C6_enter_selects (P : Platform) (d rev : PyDict.t) (self : TerminalMenu)
    (pre : list ReadEvent) (evs : list KeyEvent) (bytes : list byte) (i : Z)
    (w : World) :
  ready d rev w ->
  has_codenames d = true ->
  valid_styles self = true ->
  map (event_of rev) pre = map Some evs ->
  run_session self evs = Active i ->
  event_of rev (Chunk bytes) = Some (Key "enter") ->
  run_session self (evs ++ [Key "enter"]) = Selected i
  /\ exists w', show P self (pre ++ [Chunk bytes]) w = (Ok (Some i), w').
Proof.
  intros Hw Hd Hs Hmap Hrun Henter. split.
  - unfold run_session in *. rewrite fold_left_app, Hrun. reflexivity.
  - destruct (show_after P d rev self Hd Hs pre evs (Chunk bytes) i w (Some i) Hw Hmap Hrun)
      as (mid & _ & E).
    + cbn [loop_outcome]. rewrite Henter. reflexivity.
    + eexists. exact E.
Qed.

Lemma C6_witness :
  run_session (abc_menu true) ([Key "up"; Key "up"] ++ [Key "enter"]) = Selected 1
  /\ exists w',
       show linux_xterm (abc_menu true) ([UP_KEY; UP_KEY] ++ [ENTER_KEY]) xterm_world
       = (Ok (Some 1), w').
Proof.
  apply (C6_enter_selects linux_xterm xterm_codes xterm_rev (abc_menu true)
           [UP_KEY; UP_KEY] [Key "up"; Key "up"] [x0a] 1 xterm_world).
  - repeat split.
  - reflexivity.
  - reflexivity.
  - reflexivity.
  - reflexivity.
  - reflexivity.
Defined.

(** ** The exit code *)

Section Main.

Variable P : Platform.

Lemma init_object_Ok_inv (menu_entries : list string) (title : option string)
    (menu_cursor : option string) (cs hs : option (list string)) (cycle_cursor : bool)
    (w w1 : World) (self : TerminalMenu) :
  __init__ P menu_entries title menu_cursor cs hs cycle_cursor w = (Ok self, w1) ->
  valid_styles self = true
  /\ _init_terminal_codes P (new_object w) = (Ok tt, w1).
Proof.
  intros H.
  set (self0 := mkTerminalMenu menu_entries title
                  (match menu_cursor with Some c => c | None => EmptyString end)
                  (styles_of cs) (styles_of hs) cycle_cursor).
  destruct (valid_styles self0) eqn:Hv.
  - rewrite (init_object_valid P _ _ _ _ _ _ w Hv) in H.
    apply bind_Ok_inv in H. destruct H as ([] & w2 & E & Hret).
    inversion Hret; subst. auto.
  - apply valid_styles_false_iff in Hv.
    destruct (init_object_invalid P menu_entries title menu_cursor cs hs cycle_cursor w Hv)
      as (msg & E).
    rewrite E in H. discriminate.
Qed.

(** A menu built in a fresh process leaves the maps complete and the world
    ready for [show]. *)
Lemma constructed_ready (menu_entries : list string) (title : option string)
    (menu_cursor : option string) (cs hs : option (list string)) (cycle_cursor : bool)
    (w w1 : World) (self : TerminalMenu) :
  _codename_to_terminal_code w = None ->
  faults w = [] ->
  __init__ P menu_entries title menu_cursor cs hs cycle_cursor w = (Ok self, w1) ->
  valid_styles self = true
  /\ exists d, ready d (PyDict.invert d) w1 /\ has_codenames d = true.
Proof.
  intros Hnone Hf H.
  destruct (init_object_Ok_inv _ _ _ _ _ _ _ _ _ H) as [Hv Hinit].
  split; [exact Hv|].
  destruct (init_codes_Ok P (new_object w) w1 Hnone Hinit)
    as (s & sc & d & evs & _ & _ & _ & _ & Hget & ->).
  exists d. split.
  - repeat split. exact Hf.
  - unfold has_codenames. apply forallb_forall. intros c Hc.
    destruct (Hget c Hc) as (v & Hv' & _). unfold PyDict.mem. rewrite Hv'. reflexivity.
Qed.


End Main.



(** The two runs spelled out with the exit-code contract: three entries with
    cycling and Up, Up, Enter; two entries without cycling and Down, Down,
    Enter.  Both end with exit code 2. *)
Example exit_code_cycling :
  fst (main linux_xterm "simple-term-menu"
         (Parsed (mkNamespace None "> " "fg_red,bold" "standout" true false
                              ["a"; "b"; "c"]))
         [UP_KEY; UP_KEY; ENTER_KEY] (fresh_world cooked []))
  = Raise (SystemExit 2).
Proof. vm_compute. reflexivity. Qed.

Example exit_code_clamped :
  fst (main linux_xterm "simple-term-menu"
         (Parsed (mkNamespace None "> " "fg_red,bold" "standout" false false
                              ["x"; "y"]))
         [DOWN_KEY; DOWN_KEY; ENTER_KEY] (fresh_world cooked []))
  = Raise (SystemExit 2).
Proof. vm_compute. reflexivity. Qed.

(** C5 as stated fails: the letter k is read as the literal key k (the
    reverse map has no entry for it), which is none of up, down, enter and
    escape, and it moves the selection from 1 to 0. *)
Lemma C5_counterexample :
  _read_next_key (Chunk [x6b]) true xterm_world
  = (Ok "k", with_trace (trace xterm_world ++ [EvRead [x6b]]) xterm_world)
  /\ PyDict.get "k" xterm_rev = None
  /\ ~ (forall (self : TerminalMenu) (i : Z) (next_key : string),
          str_in next_key ["up"; "down"; "enter"; "escape"] = false ->
          transition self (Active i) (Key next_key) = Active i).
Proof.
  split; [reflexivity|]. split; [reflexivity|].
  intros H.
  specialize (H (abc_menu true) 1 "k" eq_refl).
  vm_compute in H. discriminate H.
Qed.

(** ** Interrupts that arrive during a write

    An interrupt raised by a write inside the [try] block is turned into
    "no selection" and the terminal is restored; one raised by a write of
    the first paint, before the [try] block, passes through [show] and the
    terminal stays in the raw configuration. *)

Example interrupt_in_loop_restores :
  let r := show linux_xterm (abc_menu true) [ENTER_KEY]
             (with_faults (repeat None 16 ++ [Some KeyboardInterrupt]) xterm_world) in
  fst r = Ok None /\ tty_attrs (snd r) = cooked.
Proof. vm_compute. split; reflexivity. Qed.

Example interrupt_in_first_paint_left_raw :
  let r := show linux_xterm (abc_menu true) [ENTER_KEY]
             (with_faults (repeat None 10 ++ [Some KeyboardInterrupt]) xterm_world) in
  fst r = Raise KeyboardInterrupt /\ tty_attrs (snd r) = raw_of linux_xterm cooked.
Proof. vm_compute. split; reflexivity. Qed.

(** * Further properties of the code *)

(** ** Repeated navigation *)

Lemma transition_down (self : TerminalMenu) (i : Z) :
  transition self (Active i) (Key "down") =
  Active (if i + 1 >=? num_entries self
          then (if _cycle_cursor self then 0 else num_entries self - 1)
          else i + 1).
Proof. unfold transition. rewrite handle_key_down. reflexivity. Qed.

Lemma transition_up (self : TerminalMenu) (i : Z) :
  transition self (Active i) (Key "up") =
  Active (if i - 1 <? 0
          then (if _cycle_cursor self then num_entries self - 1 else 0)
          else i - 1).
Proof. unfold transition. rewrite handle_key_up. reflexivity. Qed.

(** With cycling, k presses of Down from index i lead to (i + k) mod N and
    k presses of Up to (i - k) mod N. *)
Theorem cycling_presses (self : TerminalMenu) (k : nat) :
  _cycle_cursor self = true ->
  forall i,
    0 <= i < num_entries self ->
    fold_left (transition self) (repeat (Key "down") k) (Active i)
    = Active ((i + Z.of_nat k) mod num_entries self)
    /\ fold_left (transition self) (repeat (Key "up") k) (Active i)
       = Active ((i - Z.of_nat k) mod num_entries self).
Proof.
  intros Hc. induction k as [|k IH]; intros i Hi.
  - simpl. rewrite Z.add_0_r, Z.sub_0_r, Z.mod_small by lia. auto.
  - cbn [repeat fold_left]. rewrite transition_down, transition_up, Hc. split.
    + destruct (i + 1 >=? num_entries self) eqn:E; rewrite Z.geb_leb in E.
      * apply Z.leb_le in E.
        destruct (IH 0 ltac:(lia)) as [-> _]. f_equal.
        replace (i + Z.of_nat (S k)) with (0 + Z.of_nat k + 1 * num_entries self) by lia.
        rewrite Z_mod_plus_full. reflexivity.
      * apply Z.leb_gt in E.
        destruct (IH (i + 1) ltac:(lia)) as [-> _]. f_equal. f_equal. lia.
    + destruct (i - 1 <? 0) eqn:E.
      * apply Z.ltb_lt in E.
        destruct (IH (num_entries self - 1) ltac:(lia)) as [_ ->]. f_equal.
        replace (num_entries self - 1 - Z.of_nat k)
          with (i - Z.of_nat (S k) + 1 * num_entries self) by lia.
        rewrite Z_mod_plus_full. reflexivity.
      * apply Z.ltb_ge in E.
        destruct (IH (i - 1) ltac:(lia)) as [_ ->]. f_equal. f_equal. lia.
Qed.

Lemma cycling_presses_witness :
  fold_left (transition (abc_menu true)) (repeat (Key "down") 7) (Active 1)
  = Active ((1 + Z.of_nat 7) mod num_entries (abc_menu true))
  /\ fold_left (transition (abc_menu true)) (repeat (Key "up") 7) (Active 1)
     = Active ((1 - Z.of_nat 7) mod num_entries (abc_menu true)).
Proof.
  apply (cycling_presses (abc_menu true) 7 eq_refl 1).
  unfold num_entries; simpl; lia.
Defined.

(** Without cycling, k presses of Down from index i lead to
    min (i + k) (N - 1) and k presses of Up to max (i - k) 0. *)
Theorem clamped_presses (self : TerminalMenu) (k : nat) :
  _cycle_cursor self = false ->
  forall i,
    0 <= i < num_entries self ->
    fold_left (transition self) (repeat (Key "down") k) (Active i)
    = Active (Z.min (i + Z.of_nat k) (num_entries self - 1))
    /\ fold_left (transition self) (repeat (Key "up") k) (Active i)
       = Active (Z.max (i - Z.of_nat k) 0).
Proof.
  intros Hc. induction k as [|k IH]; intros i Hi.
  - simpl. split; f_equal; lia.
  - cbn [repeat fold_left]. rewrite transition_down, transition_up, Hc. split.
    + destruct (i + 1 >=? num_entries self) eqn:E; rewrite Z.geb_leb in E.
      * apply Z.leb_le in E.
        destruct (IH (num_entries self - 1) ltac:(lia)) as [-> _]. f_equal. lia.
      * apply Z.leb_gt in E.
        destruct (IH (i + 1) ltac:(lia)) as [-> _]. f_equal. lia.
    + destruct (i - 1 <? 0) eqn:E.
      * apply Z.ltb_lt in E.
        destruct (IH 0 ltac:(lia)) as [_ ->]. f_equal. lia.
      * apply Z.ltb_ge in E.
        destruct (IH (i - 1) ltac:(lia)) as [_ ->]. f_equal. lia.
Qed.

Lemma clamped_presses_witness :
  fold_left (transition (abc_menu false)) (repeat (Key "down") 7) (Active 1)
  = Active (Z.min (1 + Z.of_nat 7) (num_entries (abc_menu false) - 1))
  /\ fold_left (transition (abc_menu false)) (repeat (Key "up") 7) (Active 1)
     = Active (Z.max (1 - Z.of_nat 7) 0).
Proof.
  apply (clamped_presses (abc_menu false) 7 eq_refl 1).
  unfold num_entries; simpl; lia.
Defined.

(** ** What [show] and [main] can end with *)

Lemma handle_key_Break_index (self : TerminalMenu) (i j : Z) (next_key : string) :
  handle_key self i next_key = Break (Some j) -> j = i.
Proof.
  unfold handle_key.
  destruct (str_in next_key ["up"; "k"]).
  { cbv zeta. destruct (i - 1 <? 0); [destruct (_cycle_cursor self)|]; discriminate. }
  destruct (str_in next_key ["down"; "j"]).
  { cbv zeta. destruct (i + 1 >=? num_entries self);
      [destruct (_cycle_cursor self)|]; discriminate. }
  destruct (str_in next_key ["enter"]); [intros [= <-]; reflexivity|].
  destruct (str_in next_key ["escape"]); discriminate.
Qed.

Lemma handle_key_Continue (self : TerminalMenu) (i : Z) (next_key : string) :
  str_in next_key ["enter"] || str_in next_key ["escape"] = false ->
  exists j, handle_key self i next_key = Continue j.
Proof.
  intros H. apply orb_false_iff in H. destruct H as [He Hx]. unfold handle_key.
  destruct (str_in next_key ["up"; "k"]).
  { cbv zeta. destruct (i - 1 <? 0); [destruct (_cycle_cursor self)|]; eexists; reflexivity. }
  destruct (str_in next_key ["down"; "j"]).
  { cbv zeta. destruct (i + 1 >=? num_entries self);
      [destruct (_cycle_cursor self)|]; eexists; reflexivity. }
  rewrite He, Hx. eexists; reflexivity.
Qed.

Section LoopOutcomes.

Variable rev : PyDict.t.
Variable self : TerminalMenu.

Lemma loop_outcome_in_range (script : list ReadEvent) :
  forall i j,
    0 <= i < num_entries self ->
    loop_outcome self rev script i = Ok (Some j) ->
    0 <= j < num_entries self.
Proof.
  induction script as [|ev rest IH]; simpl; intros i j Hi H; [discriminate|].
  destruct (event_of rev ev) as [[k|]|]; try discriminate.
  destruct (handle_key self i k) as [i'|r] eqn:Ek.
  - apply (IH i'); [|exact H]. eapply handle_key_in_range; eauto.
  - inversion H; subst r. apply handle_key_Break_index in Ek. subst j. exact Hi.
Qed.

Lemma loop_outcome_cases (script : list ReadEvent) :
  forall i,
    loop_outcome self rev script i = Blocked
    \/ loop_outcome self rev script i = Raise UnicodeDecodeError
    \/ loop_outcome self rev script i = Raise KeyboardInterrupt
    \/ exists result, loop_outcome self rev script i = Ok result.
Proof.
  induction script as [|ev rest IH]; simpl; intros i; [auto|].
  destruct (event_of rev ev) as [[k|]|]; auto.
  destruct (handle_key self i k) as [i'|r]; [apply IH|].
  right. right. right. exists r. reflexivity.
Qed.

Lemma loop_outcome_Blocked (script : list ReadEvent) :
  existsb (ends_session rev) script = false ->
  forall i, loop_outcome self rev script i = Blocked.
Proof.
  induction script as [|ev rest IH]; simpl; intros H i; [reflexivity|].
  apply orb_false_iff in H. destruct H as [Hev Hrest].
  unfold ends_session in Hev.
  destruct (event_of rev ev) as [[k|]|]; try discriminate.
  destruct (handle_key_Continue self i k Hev) as (j & ->). apply IH, Hrest.
Qed.

End LoopOutcomes.

(** For a menu with at least one entry, an index returned by [show] is the
    index of an entry, whatever the terminal delivers. *)
Theorem show_returns_entry_index (P : Platform) (d rev : PyDict.t)
    (self : TerminalMenu) (script : list ReadEvent) (w w' : World) (j : Z) :
  ready d rev w ->
  has_codenames d = true ->
  valid_styles self = true ->
  1 <= num_entries self ->
  show P self script w = (Ok (Some j), w') ->
  0 <= j < num_entries self.
Proof.
  intros Hw Hd Hs HN H.
  destruct (show_spec P d rev self Hd Hs script w Hw) as (mid & _ & E).
  rewrite E in H. inversion H as [[Hr Hw']]. clear H Hw'.
  unfold show_result, interrupt_to_none in Hr.
  apply (loop_outcome_in_range rev self script 0 j); [lia|].
  destruct (loop_outcome self rev script 0) as [r|e|]; try discriminate.
  - exact Hr.
  - destruct e; discriminate.
Qed.

Lemma show_returns_entry_index_witness :
  0 <= 2 < num_entries (abc_menu true).
Proof.
  apply (show_returns_entry_index linux_xterm xterm_codes xterm_rev (abc_menu true)
           [UP_KEY; ENTER_KEY] xterm_world
           (snd (show linux_xterm (abc_menu true) [UP_KEY; ENTER_KEY] xterm_world)) 2).
  - repeat split.
  - reflexivity.
  - reflexivity.
  - unfold num_entries; simpl; lia.
  - vm_compute. reflexivity.
Defined.

(** As long as no read ends the session, [show] does not return: it stays
    blocked in the read with the terminal in the raw configuration, the
    effects of [_reset_term] not having happened. *)
Theorem show_blocks_without_ending_read (P : Platform) (d rev : PyDict.t)
    (self : TerminalMenu) (script : list ReadEvent) (w : World) :
  ready d rev w ->
  has_codenames d = true ->
  valid_styles self = true ->
  existsb (ends_session rev) script = false ->
  exists mid w',
    show P self script w = (Blocked, w')
    /\ tty_attrs w' = raw_of P (tty_attrs w)
    /\ trace w' = trace w ++ enter_events P d (tty_attrs w) ++ mid
    /\ forallb is_io_event mid = true.
Proof.
  intros Hw Hd Hs Hnone.
  destruct (show_spec P d rev self Hd Hs script w Hw) as (mid & Hmid & E).
  unfold show_result in E.
  rewrite (loop_outcome_Blocked rev self script Hnone 0) in E. simpl in E.
  exists mid. eexists. split; [exact E|]. repeat split. exact Hmid.
Qed.

Lemma show_blocks_without_ending_read_witness :
  exists mid w',
    show linux_xterm (abc_menu true) [UP_KEY; Chunk [x78]; DOWN_KEY] xterm_world
    = (Blocked, w')
    /\ tty_attrs w' = raw_of linux_xterm cooked
    /\ trace w' = trace xterm_world ++ enter_events linux_xterm xterm_codes cooked ++ mid
    /\ forallb is_io_event mid = true.
Proof.
  apply (show_blocks_without_ending_read linux_xterm xterm_codes xterm_rev (abc_menu true)
           [UP_KEY; Chunk [x78]; DOWN_KEY] xterm_world).
  - repeat split.
  - reflexivity.
  - reflexivity.
  - reflexivity.
Defined.

Section MainOutcomes.

Variable P : Platform.

Lemma init_object_Ok_self (menu_entries : list string) (title : option string)
    (menu_cursor : option string) (cs hs : option (list string)) (cycle_cursor : bool)
    (w w1 : World) (self : TerminalMenu) :
  __init__ P menu_entries title menu_cursor cs hs cycle_cursor w = (Ok self, w1) ->
  self = mkTerminalMenu menu_entries title
           (match menu_cursor with Some c => c | None => EmptyString end)
           (styles_of cs) (styles_of hs) cycle_cursor.
Proof.
  intros H.
  set (self0 := mkTerminalMenu menu_entries title
                  (match menu_cursor with Some c => c | None => EmptyString end)
                  (styles_of cs) (styles_of hs) cycle_cursor).
  destruct (valid_styles self0) eqn:Hv.
  - rewrite (init_object_valid P _ _ _ _ _ _ w Hv) in H.
    apply bind_Ok_inv in H. destruct H as ([] & w2 & E & Hret).
    inversion Hret; subst. reflexivity.
  - apply valid_styles_false_iff in Hv.
    destruct (init_object_invalid P menu_entries title menu_cursor cs hs cycle_cursor w Hv)
      as (msg & E).
    rewrite E in H. discriminate.
Qed.

Lemma init_codes_not_Blocked (w w' : World) :
  _init_terminal_codes P w <> (Blocked, w').
Proof.
  destruct (_codename_to_terminal_code w) as [d|] eqn:E.
  - unfold _init_terminal_codes. rewrite E. discriminate.
  - destruct (init_codes_cases P w E) as (evs & _ & [(e & -> & _)|Hok]); [discriminate|].
    destruct Hok as (s & sc & d0 & w1 & _ & _ & _ & _ & ->). discriminate.
Qed.

Lemma main_version (prog : string) (ns : Namespace) (script : list ReadEvent) (w : World) :
  ns_print_version ns = true ->
  faults w = [] ->
  main P prog (Parsed ns) script w
  = (Raise (SystemExit 0),
     with_trace (trace w ++ [EvStdout (prog ++ ", version " ++ __version__)%string;
                             EvStdout LF]) w).
Proof.
  intros Hv Hf. unfold main.
  rewrite (bind_Ok _ _ _ _ _ (parse_arguments_Ok ns w (or_introl Hv))).
  simpl. rewrite Hv.
  unfold py_print, stdout_write, bind, device_op, log, raise. rewrite Hf. simpl.
  rewrite Hf. simpl. rewrite <- app_assoc. reflexivity.
Qed.

Lemma main_no_entries (prog : string) (ns : Namespace) (script : list ReadEvent) (w : World) :
  ns_print_version ns = false ->
  ns_entries ns = [] ->
  main P prog (Parsed ns) script w
  = (Raise (SystemExit 0),
     with_trace (trace w ++ [EvStderr "No menu entries given!"; EvStderr LF]) w).
Proof.
  intros Hv He.
  unfold main, try_except, parse_arguments, bind, ret, raise. simpl.
  rewrite Hv, He. simpl. unfold stderr_print, bind, log, raise. simpl.
  rewrite with_trace_twice, <- app_assoc. reflexivity.
Qed.

(** [main] once the menu is built, whatever [show] ends with. *)
Lemma main_menu_result (prog : string) (ns : Namespace) (script : list ReadEvent)
    (w w1 w2 : World) (self : TerminalMenu) (r : Res (option Z)) :
  ns_print_version ns = false ->
  is_empty (ns_entries ns) = false ->
  __init__ P (ns_entries ns) (ns_title ns) (Some (ns_cursor ns))
           (style_option (ns_cursor_style ns)) (style_option (ns_highlight_style ns))
           (ns_cycle ns) w = (Ok self, w1) ->
  show P self script w1 = (r, w2) ->
  main P prog (Parsed ns) script w =
  (match r with
   | Ok None => Raise (SystemExit 0)
   | Ok (Some i) => Raise (SystemExit (i + 1))
   | Raise e => Raise e
   | Blocked => Blocked
   end, w2).
Proof.
  intros Hv He Hinit Hshow.
  rewrite (main_menu_path P prog ns script w Hv He).
  assert (E : try_except
                (__init__ P (ns_entries ns) (ns_title ns) (Some (ns_cursor ns))
                   (style_option (ns_cursor_style ns))
                   (style_option (ns_highlight_style ns)) (ns_cycle ns))
                on_InvalidStyleError w = (Ok self, w1)).
  { unfold try_except. rewrite Hinit. reflexivity. }
  rewrite (bind_Ok _ _ _ _ _ E).
  destruct r as [[i|]|e|].
  - rewrite (bind_Ok _ _ _ _ _ Hshow). reflexivity.
  - rewrite (bind_Ok _ _ _ _ _ Hshow). reflexivity.
  - apply bind_Raise, Hshow.
  - apply bind_Blocked, Hshow.
Qed.

End MainOutcomes.

(** A run of [main] in a fresh process whose terminal operations do not
    fail never returns normally and ends in one of four ways only: blocked
    in a read, with UnicodeDecodeError, with the exception of a failed
    capability query, or with an exit code between 0 and the number of
    entries given. *)
Theorem main_outcomes (P : Platform) (prog : string) (argv : ParseArgs)
    (script : list ReadEvent) (w w' : World) (r : Res unit) :
  _codename_to_terminal_code w = None ->
  faults w = [] ->
  main P prog argv script w = (r, w') ->
  r = Blocked
  \/ r = Raise UnicodeDecodeError
  \/ (exists e, r = Raise e /\ is_query_failure e = true)
  \/ exists code,
       r = Raise (SystemExit code)
       /\ 0 <= code <= Z.of_nat (List.length (given_entries argv)).
Proof.
  intros Hnone Hf H.
  assert (Hzero : r = Raise (SystemExit 0) ->
                  exists code, r = Raise (SystemExit code)
                               /\ 0 <= code <= Z.of_nat (List.length (given_entries argv))).
  { intros ->. exists 0. split; [reflexivity | lia]. }
  destruct argv as [code|ns].
  { right. right. right. apply Hzero. inversion H. reflexivity. }
  destruct (ns_print_version ns) eqn:Hv.
  { right. right. right. apply Hzero.
    rewrite (main_version P prog ns script w Hv Hf) in H. inversion H. reflexivity. }
  destruct (ns_entries ns) as [|entry entries'] eqn:He.
  { right. right. right. apply Hzero.
    rewrite (main_no_entries P prog ns script w Hv He) in H. inversion H. reflexivity. }
  assert (Hne : is_empty (ns_entries ns) = false) by (rewrite He; reflexivity).
  set (cs := style_option (ns_cursor_style ns)) in *.
  set (hs := style_option (ns_highlight_style ns)) in *.
  set (self := mkTerminalMenu (ns_entries ns) (ns_title ns) (ns_cursor ns)
                 (styles_of cs) (styles_of hs) (ns_cycle ns)).
  destruct (valid_styles self) eqn:Hs.
  - pose proof (init_object_valid P (ns_entries ns) (ns_title ns) (Some (ns_cursor ns))
                  cs hs (ns_cycle ns) w Hs) as Hinit.
    destruct (_init_terminal_codes P (new_object w)) as [[[]|e|] w1] eqn:Ecodes.
    + rewrite (bind_Ok _ _ _ _ _ Ecodes) in Hinit. unfold ret in Hinit.
      destruct (constructed_ready P _ _ _ _ _ _ w w1 self Hnone Hf Hinit)
        as (_ & d & Hw1 & Hd).
      destruct (show_spec P d (PyDict.invert d) self Hd Hs script w1 Hw1)
        as (mid & _ & Eshow).
      rewrite (main_menu_result P prog ns script w w1 _ self _ Hv Hne Hinit Eshow) in H.
      inversion H as [[Hr Hw']]. clear H Hw'.
      unfold show_result, interrupt_to_none.
      pose proof (loop_outcome_in_range (PyDict.invert d) self script 0) as Hrange.
      destruct (loop_outcome_cases (PyDict.invert d) self script 0)
        as [E|[E|[E|(result & E)]]]; rewrite E in *; auto.
      * right. right. right. exists 0. split; [reflexivity | lia].
      * right. right. right. destruct result as [j|].
        -- exists (j + 1). split; [reflexivity|].
           assert (0 <= j < num_entries self) by (apply Hrange; [unfold num_entries, self; rewrite He; simpl; lia | reflexivity]).
           unfold num_entries, self in *. simpl in *. rewrite He in *. simpl in *. lia.
        -- exists 0. split; [reflexivity | lia].
    + right. right. left. exists e.
      destruct (init_codes_Raise_inv P (new_object w) w1 e Hnone Ecodes) as (Hk & _).
      split; [|exact Hk].
      rewrite (main_menu_path P prog ns script w Hv Hne) in H.
      rewrite (bind_Raise _ _ _ _ _ Ecodes) in Hinit.
      assert (E : try_except
                    (__init__ P (ns_entries ns) (ns_title ns) (Some (ns_cursor ns))
                       cs hs (ns_cycle ns)) on_InvalidStyleError w = (Raise e, w1)).
      { unfold try_except. rewrite Hinit. destruct e; try discriminate Hk; reflexivity. }
      rewrite (bind_Raise _ _ _ _ _ E) in H. inversion H. reflexivity.
    + exfalso. exact (init_codes_not_Blocked P _ _ Ecodes).
  - right. right. right. apply Hzero.
    apply valid_styles_false_iff in Hs.
    destruct (init_object_invalid P (ns_entries ns) (ns_title ns) (Some (ns_cursor ns))
                cs hs (ns_cycle ns) w Hs) as (msg & E).
    rewrite (main_menu_path P prog ns script w Hv Hne) in H.
    assert (E' : try_except
                   (__init__ P (ns_entries ns) (ns_title ns) (Some (ns_cursor ns))
                      cs hs (ns_cycle ns)) on_InvalidStyleError w
                 = (Raise (SystemExit 0),
                    with_trace (trace (new_object w) ++ [EvStderr msg; EvStderr LF])
                               (new_object w))).
    { unfold try_except. rewrite E. simpl.
      unfold bind, stderr_print, bind, log, raise. simpl.
      rewrite <- app_assoc. reflexivity. }
    rewrite (bind_Raise _ _ _ _ _ E') in H. inversion H. reflexivity.
Qed.

Lemma main_outcomes_witness :
  @Raise unit (SystemExit 2) = Blocked
  \/ @Raise unit (SystemExit 2) = Raise UnicodeDecodeError
  \/ (exists e, @Raise unit (SystemExit 2) = Raise e /\ is_query_failure e = true)
  \/ exists code,
       @Raise unit (SystemExit 2) = Raise (SystemExit code)
       /\ 0 <= code
          <= Z.of_nat (List.length
                         (given_entries
                            (Parsed (mkNamespace None "> " "fg_red,bold" "standout" true
                                                 false ["a"; "b"; "c"])))).
Proof.
  apply (main_outcomes linux_xterm "simple-term-menu"
           (Parsed (mkNamespace None "> " "fg_red,bold" "standout" true false
                                ["a"; "b"; "c"]))
           [UP_KEY; UP_KEY; ENTER_KEY] (fresh_world cooked [])
           (snd (main linux_xterm "simple-term-menu"
                   (Parsed (mkNamespace None "> " "fg_red,bold" "standout" true false
                                        ["a"; "b"; "c"]))
                   [UP_KEY; UP_KEY; ENTER_KEY] (fresh_world cooked [])))
           (Raise (SystemExit 2))).
  - reflexivity.
  - reflexivity.
  - vm_compute. reflexivity.
Defined.

(** ** A chunk that does not decode *)

Lemma constructed_attrs (P : Platform) (menu_entries : list string)
    (title : option string) (menu_cursor : option string)
    (cs hs : option (list string)) (cycle_cursor : bool)
    (w w1 : World) (self : TerminalMenu) :
  _codename_to_terminal_code w = None ->
  __init__ P menu_entries title menu_cursor cs hs cycle_cursor w = (Ok self, w1) ->
  tty_attrs w1 = tty_attrs w
  /\ exists evs, trace w1 = trace w ++ evs /\ forallb is_tput_event evs = true.
Proof.
  intros Hnone H.
  destruct (init_object_Ok_inv P _ _ _ _ _ _ _ _ _ H) as [_ Hinit].
  destruct (init_codes_Ok P (new_object w) w1 Hnone Hinit)
    as (s & sc & d & evs & _ & _ & Hev & _ & _ & ->).
  split; [reflexivity|]. exists evs. split; [reflexivity | exact Hev].
Qed.

(** When, in an active session, the terminal delivers a chunk with a byte
    above 127, [main] ends with an uncaught UnicodeDecodeError, not with an
    exit code of its own, after the terminal configuration was put back;
    what would have been read afterwards plays no role. *)
Theorem undecodable_chunk_ends_main (P : Platform) (prog : string) (ns : Namespace)
    (pre rest : list ReadEvent) (evs : list KeyEvent) (bytes : list byte) (i : Z)
    (w w1 : World) (self : TerminalMenu) (rev : PyDict.t) :
  _codename_to_terminal_code w = None ->
  faults w = [] ->
  ns_print_version ns = false ->
  is_empty (ns_entries ns) = false ->
  __init__ P (ns_entries ns) (ns_title ns) (Some (ns_cursor ns))
           (style_option (ns_cursor_style ns)) (style_option (ns_highlight_style ns))
           (ns_cycle ns) w = (Ok self, w1) ->
  _terminal_code_to_codename w1 = Some rev ->
  map (event_of rev) pre = map Some evs ->
  run_session self evs = Active i ->
  decode_ascii bytes = None ->
  exists w',
    main P prog (Parsed ns) (pre ++ Chunk bytes :: rest) w = (Raise UnicodeDecodeError, w')
    /\ tty_attrs w' = tty_attrs w.
Proof.
  intros Hnone Hf Hv He Hinit Hrev Hmap Hrun Hdec.
  destruct (constructed_ready P _ _ _ _ _ _ w w1 self Hnone Hf Hinit)
    as (Hs & d & Hw1 & Hd).
  assert (rev = PyDict.invert d) by (destruct Hw1 as (_ & _ & Hr); congruence).
  subst rev.
  destruct (show_spec P d (PyDict.invert d) self Hd Hs (pre ++ Chunk bytes :: rest) w1 Hw1)
    as (mid & _ & E).
  unfold show_result in E.
  rewrite (loop_outcome_app (PyDict.invert d) self pre evs (Chunk bytes :: rest) 0 i
             Hmap Hrun) in E.
  cbn [loop_outcome event_of] in E. rewrite Hdec in E. simpl in E.
  eexists. split.
  - rewrite (main_menu_result P prog ns _ w w1 _ self _ Hv He Hinit E). reflexivity.
  - simpl. apply (constructed_attrs P _ _ _ _ _ _ w w1 self Hnone Hinit).
Qed.

Lemma undecodable_chunk_ends_main_witness :
  exists w',
    main linux_xterm "simple-term-menu"
         (Parsed (mkNamespace None "> " "fg_red,bold" "standout" true false ["a"; "b"; "c"]))
         ([UP_KEY] ++ Chunk [xc3; xa4] :: [ENTER_KEY]) (fresh_world cooked [])
    = (Raise UnicodeDecodeError, w')
    /\ tty_attrs w' = tty_attrs (fresh_world cooked []).
Proof.
  apply (undecodable_chunk_ends_main linux_xterm "simple-term-menu"
           (mkNamespace None "> " "fg_red,bold" "standout" true false ["a"; "b"; "c"])
           [UP_KEY] [ENTER_KEY] [Key "up"] [xc3; xa4] 2
           (fresh_world cooked []) xterm_world (abc_menu true) xterm_rev).
  - reflexivity.
  - reflexivity.
  - reflexivity.
  - reflexivity.
  - vm_compute. reflexivity.
  - reflexivity.
  - reflexivity.
  - reflexivity.
  - reflexivity.
Defined.

(** ** The capability maps once built *)

Lemma str_in_In (x : string) (l : list string) : str_in x l = true <-> In x l.
Proof.
  unfold str_in. rewrite existsb_exists. split.
  - intros (y & Hy & E). apply String.eqb_eq in E. subst. exact Hy.
  - intros H. exists x. split; [exact H | apply String.eqb_refl].
Qed.

Lemma nodupb_NoDup (l : list string) : nodupb l = true -> NoDup l.
Proof.
  induction l as [|x l IH]; simpl; intros H; [constructor|].
  apply andb_true_iff in H. destruct H as [Hx Hl]. constructor; [|apply IH, Hl].
  intros Hin. apply str_in_In in Hin. rewrite Hin in Hx. discriminate.
Qed.

Lemma codenames_NoDup : NoDup _codenames.
Proof. apply nodupb_NoDup. vm_compute. reflexivity. Qed.

Lemma dict_get_not_in_keys (k : string) (d : PyDict.t) :
  ~ In k (PyDict.keys d) -> PyDict.get k d = None.
Proof.
  induction d as [|[k0 v0] d IH]; simpl; intros H; [reflexivity|].
  destruct (String.eqb_spec k k0) as [->|Hne]; [exfalso; apply H; left; reflexivity|].
  apply IH. intros Hin. apply H. right. exact Hin.
Qed.

Lemma dict_set_fresh (k v : string) (d : PyDict.t) :
  PyDict.get k d = None -> PyDict.set k v d = d ++ [(k, v)].
Proof.
  induction d as [|[k0 v0] d IH]; simpl; intros H; [reflexivity|].
  destruct (String.eqb_spec k k0) as [->|Hne]; [discriminate|].
  rewrite IH by exact H. reflexivity.
Qed.

Lemma dict_keys_last (d : PyDict.t) (ks : list string) (k : string) :
  PyDict.keys d = ks ++ [k] -> exists l v, d = l ++ [(k, v)] /\ PyDict.keys l = ks.
Proof.
  revert ks. induction d as [|[k0 v0] d IH]; intros ks H.
  - destruct ks; discriminate.
  - destruct ks as [|k1 ks]; simpl in H.
    + inversion H as [[Hk Hd]]. destruct d; [|discriminate].
      exists [], v0. split; reflexivity.
    + inversion H as [[Hk Hd]]. destruct (IH ks Hd) as (l & v & -> & Hl).
      exists ((k1, v0) :: l), v. split; [reflexivity|]. simpl. rewrite Hl. reflexivity.
Qed.

Section BuiltMaps.

Variable P : Platform.

Lemma code_step_trace (sc : Z) (codename : string) (w : World) :
  (if negb (is_color_codename codename) || (sc >=? 8)
   then _query_terminfo_database P codename
   else ret EmptyString) w
  = (code_for P sc codename,
     with_trace (trace w ++ map tput_event (filter (is_queried sc) [codename])) w).
Proof.
  unfold code_for. simpl. unfold is_queried.
  destruct (negb (is_color_codename codename) || (sc >=? 8)).
  - rewrite query_spec. reflexivity.
  - unfold ret. simpl. rewrite with_trace_same. reflexivity.
Qed.

Lemma query_codenames_trace (sc : Z) (l : list string) :
  forall acc w d w',
    query_codenames P sc l acc w = (Ok d, w') ->
    w' = with_trace (trace w ++ map tput_event (filter (is_queried sc) l)) w.
Proof.
  induction l as [|c l IH]; simpl; intros acc w d w' H.
  - inversion H. rewrite with_trace_same. reflexivity.
  - apply bind_Ok_inv in H. destruct H as (v & w1 & Hstep & Hrest).
    rewrite code_step_trace in Hstep. inversion Hstep as [[Hv Hw1]]. clear Hstep.
    apply IH in Hrest. rewrite Hrest, <- Hw1.
    rewrite with_trace_trace, with_trace_twice. simpl.
    destruct (is_queried sc c); simpl.
    + rewrite <- app_assoc. reflexivity.
    + rewrite app_nil_r. reflexivity.
Qed.

Lemma query_codenames_keys (sc : Z) (l : list string) :
  forall acc w d w',
    query_codenames P sc l acc w = (Ok d, w') ->
    NoDup l ->
    (forall c, In c l -> ~ In c (PyDict.keys acc)) ->
    PyDict.keys d = PyDict.keys acc ++ l.
Proof.
  induction l as [|c l IH]; simpl; intros acc w d w' H Hnd Hfresh.
  - inversion H. rewrite app_nil_r. reflexivity.
  - apply bind_Ok_inv in H. destruct H as (v & w1 & _ & Hrest).
    inversion Hnd as [|? ? Hc Hl]; subst.
    assert (Hset : PyDict.set c v acc = acc ++ [(c, v)]).
    { apply dict_set_fresh, dict_get_not_in_keys, Hfresh. left. reflexivity. }
    rewrite Hset in Hrest.
    rewrite (IH _ _ _ _ Hrest Hl).
    + unfold PyDict.keys. rewrite map_app. simpl. rewrite <- app_assoc. reflexivity.
    + intros c' Hc' Hin. unfold PyDict.keys in Hin. rewrite map_app in Hin.
      apply in_app_or in Hin. destruct Hin as [Hin|[<-|[]]].
      * apply (Hfresh c'); [right; exact Hc' | exact Hin].
      * exact (Hc Hc').
Qed.

(** The shape of the forward map after a successful first
    [_init_terminal_codes], and the log of the queries made. *)
Lemma init_codes_shape (w w' : World) :
  _codename_to_terminal_code w = None ->
  _init_terminal_codes P w = (Ok tt, w') ->
  exists s sc d0,
    query_outcome P "colors" = Ok s
    /\ PyStr.to_int s = Some sc
    /\ PyDict.keys d0 = _codenames
    /\ _codename_to_terminal_code w' = Some (d0 ++ [("enter", LF); ("escape", ESC)])
    /\ _terminal_code_to_codename w'
       = Some (PyDict.invert (d0 ++ [("enter", LF); ("escape", ESC)]))
    /\ trace w' = trace w ++ tput_event "colors"
                          :: map tput_event (filter (is_queried sc) _codenames).
Proof.
  intros Hnone H.
  destruct (init_codes_cases P w Hnone) as (evs & _ & [(e & E & _)|Hok]).
  { rewrite E in H. discriminate. }
  destruct Hok as (s & sc & d0 & w1 & Hq & Hi & Hqc & _ & E).
  rewrite E in H. inversion H as [Hw']. clear H E.
  pose proof (query_codenames_keys sc _codenames _ _ _ _ Hqc codenames_NoDup
                (fun c _ (F : In c []) => F)) as Hkeys.
  simpl in Hkeys.
  pose proof (query_codenames_trace sc _codenames _ _ _ _ Hqc) as Hw1.
  assert (Hupd : PyDict.set "escape" ESC (PyDict.set "enter" LF d0)
                 = d0 ++ [("enter", LF); ("escape", ESC)]).
  { rewrite (dict_set_fresh "enter" LF d0).
    - rewrite (dict_set_fresh "escape" ESC).
      + rewrite <- app_assoc. reflexivity.
      + apply dict_get_not_in_keys. unfold PyDict.keys. rewrite map_app.
        fold (PyDict.keys d0). rewrite Hkeys.
        intros Hin. apply str_in_In in Hin. vm_compute in Hin. discriminate Hin.
    - apply dict_get_not_in_keys. rewrite Hkeys.
      intros Hin. apply str_in_In in Hin. vm_compute in Hin. discriminate Hin. }
  subst w'. exists s, sc, d0.
  unfold with_terminal_code_to_codename, with_codename_to_terminal_code.
  cbn [trace _codename_to_terminal_code _terminal_code_to_codename PyDict.update
       fold_left _name_to_control_character fst snd].
  rewrite Hupd. repeat split; auto.
  rewrite Hw1. unfold with_trace.
  cbn [trace]. rewrite <- app_assoc. reflexivity.
Qed.

End BuiltMaps.

(** In a process where the maps are not built yet, a successful
    [_init_terminal_codes] runs [tput] once for colors and then once per
    codename of the class in the order of the table, leaving out the
    colour codenames when fewer than 8 colours are reported: 32 runs or 16,
    and nothing else is logged. *)
Theorem init_codes_query_log (P : Platform) (w w' : World) :
  _codename_to_terminal_code w = None ->
  _init_terminal_codes P w = (Ok tt, w') ->
  exists s sc,
    fst (_query_terminfo_database P "colors" w) = Ok s
    /\ PyStr.to_int s = Some sc
    /\ trace w' = trace w ++ tput_event "colors"
                          :: map tput_event
                               (if sc >=? 8 then _codenames
                                else filter (fun c => negb (is_color_codename c)) _codenames)
    /\ List.length (trace w') = (List.length (trace w) + (if sc >=? 8 then 32 else 16))%nat.
Proof.
  intros Hnone H.
  destruct (init_codes_shape P w w' Hnone H) as (s & sc & d0 & Hq & Hi & _ & _ & _ & Ht).
  exists s, sc. rewrite query_spec. simpl. split; [exact Hq|]. split; [exact Hi|].
  assert (Hf : filter (is_queried sc) _codenames
               = if sc >=? 8 then _codenames
                 else filter (fun c => negb (is_color_codename c)) _codenames).
  { clear Ht. unfold is_queried. destruct (sc >=? 8).
    - induction _codenames as [|c l IH]; simpl; [reflexivity|].
      rewrite orb_true_r. f_equal. exact IH.
    - apply filter_ext. intros c. apply orb_false_r. }
  rewrite Hf in Ht. split; [exact Ht|].
  rewrite Ht, length_app. cbn [List.length]. rewrite length_map.
  destruct (sc >=? 8); reflexivity.
Qed.

Lemma init_codes_query_log_witness :
  exists s sc,
    fst (_query_terminfo_database linux_vt100 "colors" (fresh_world cooked [])) = Ok s
    /\ PyStr.to_int s = Some sc
    /\ trace vt100_world
       = trace (fresh_world cooked [])
         ++ tput_event "colors"
            :: map tput_event
                 (if sc >=? 8 then _codenames
                  else filter (fun c => negb (is_color_codename c)) _codenames)
    /\ List.length (trace vt100_world)
       = (List.length (trace (fresh_world cooked [])) + (if sc >=? 8 then 32 else 16))%nat.
Proof.
  apply (init_codes_query_log linux_vt100 (fresh_world cooked []) vt100_world).
  - reflexivity.
  - vm_compute. reflexivity.
Defined.

(** Whatever [tput] answers, the maps a successful first
    [_init_terminal_codes] builds have the codenames of the class followed
    by enter and escape as the keys of the forward map, and the reverse map
    gives enter for the line feed and escape for the escape character: the
    Enter and Escape keys are read as such on every terminal. *)
Theorem control_keys_always_decoded (P : Platform) (w w' : World) :
  _codename_to_terminal_code w = None ->
  _init_terminal_codes P w = (Ok tt, w') ->
  exists d rev,
    _codename_to_terminal_code w' = Some d
    /\ _terminal_code_to_codename w' = Some rev
    /\ PyDict.keys d = _codenames ++ ["enter"; "escape"]
    /\ PyDict.get "enter" d = Some LF
    /\ PyDict.get "escape" d = Some ESC
    /\ PyDict.get LF rev = Some "enter"
    /\ PyDict.get ESC rev = Some "escape"
    /\ event_of rev ENTER_KEY = Some (Key "enter")
    /\ event_of rev ESCAPE_KEY = Some (Key "escape").
Proof.
  intros Hnone H.
  destruct (init_codes_shape P w w' Hnone H) as (s & sc & d0 & _ & _ & Hk & Hd & Hr & _).
  set (d := d0 ++ [("enter", LF); ("escape", ESC)]) in *.
  assert (Hkeys : PyDict.keys d = _codenames ++ ["enter"; "escape"]).
  { unfold d, PyDict.keys. rewrite map_app. fold (PyDict.keys d0). rewrite Hk. reflexivity. }
  assert (Hnd : NoDup (PyDict.keys d)).
  { rewrite Hkeys. apply nodupb_NoDup. vm_compute. reflexivity. }
  assert (Henter : PyDict.get LF (PyDict.invert d) = Some "enter").
  { unfold d. apply (invert_last d0 [("escape", ESC)] LF "enter").
    intros kv [<-|[]]. discriminate. }
  assert (Hescape : PyDict.get ESC (PyDict.invert d) = Some "escape").
  { unfold d. change (d0 ++ [("enter", LF); ("escape", ESC)])
      with (d0 ++ [("enter", LF)] ++ [("escape", ESC)]).
    rewrite app_assoc. apply (invert_last (d0 ++ [("enter", LF)]) [] ESC "escape").
    intros kv []. }
  exists d, (PyDict.invert d). repeat split; auto.
  - apply dict_In_get; [exact Hnd|]. unfold d. apply in_or_app. right. left. reflexivity.
  - apply dict_In_get; [exact Hnd|]. unfold d. apply in_or_app. right. right. left. reflexivity.
  - unfold event_of, ENTER_KEY, key_of_code. simpl decode_ascii. simpl option_map.
    change (String (ascii_of_byte x0a) EmptyString) with LF. rewrite Henter. reflexivity.
  - unfold event_of, ESCAPE_KEY, key_of_code. simpl decode_ascii. simpl option_map.
    change (String (ascii_of_byte x1b) EmptyString) with ESC. rewrite Hescape. reflexivity.
Qed.

Lemma control_keys_always_decoded_witness :
  exists d rev,
    _codename_to_terminal_code vt100_world = Some d
    /\ _terminal_code_to_codename vt100_world = Some rev
    /\ PyDict.keys d = _codenames ++ ["enter"; "escape"]
    /\ PyDict.get "enter" d = Some LF
    /\ PyDict.get "escape" d = Some ESC
    /\ PyDict.get LF rev = Some "enter"
    /\ PyDict.get ESC rev = Some "escape"
    /\ event_of rev ENTER_KEY = Some (Key "enter")
    /\ event_of rev ESCAPE_KEY = Some (Key "escape").
Proof.
  apply (control_keys_always_decoded linux_vt100 (fresh_world cooked []) vt100_world).
  - reflexivity.
  - vm_compute. reflexivity.
Defined.

(** The sequence of the Up key is read as up on every terminal where it is
    neither the line feed nor the escape character. *)
Theorem up_key_decoded (P : Platform) (w w' : World) (d rev : PyDict.t) (s : string) :
  _codename_to_terminal_code w = None ->
  _init_terminal_codes P w = (Ok tt, w') ->
  _codename_to_terminal_code w' = Some d ->
  _terminal_code_to_codename w' = Some rev ->
  PyDict.get "up" d = Some s ->
  s <> LF ->
  s <> ESC ->
  PyDict.get s rev = Some "up".
Proof.
  intros Hnone H Hd Hr Hup Hlf Hesc.
  destruct (init_codes_shape P w w' Hnone H) as (s0 & sc & d0 & _ & _ & Hk & Hd' & Hr' & _).
  rewrite Hd' in Hd. inversion Hd; subst d. rewrite Hr' in Hr. inversion Hr; subst rev.
  clear Hd Hr.
  assert (Hlast : exists ks, _codenames = ks ++ ["up"]).
  { exists (removelast _codenames). vm_compute. reflexivity. }
  destruct Hlast as (ks & Hks). rewrite Hks in Hk.
  destruct (dict_keys_last d0 ks "up" Hk) as (l & v & -> & Hl).
  assert (Hnd : NoDup (PyDict.keys ((l ++ [("up", v)]) ++ [("enter", LF); ("escape", ESC)]))).
  { unfold PyDict.keys. rewrite !map_app. fold (PyDict.keys l). rewrite Hl.
    simpl map. rewrite <- Hks. apply nodupb_NoDup. vm_compute. reflexivity. }
  assert (v = s).
  { assert (E : PyDict.get "up" ((l ++ [("up", v)]) ++ [("enter", LF); ("escape", ESC)])
                = Some v).
    { apply dict_In_get; [exact Hnd|]. apply in_or_app. left. apply in_or_app.
      right. left. reflexivity. }
    congruence. }
  subst v. rewrite <- app_assoc.
  apply (invert_last l [("enter", LF); ("escape", ESC)] s "up").
  intros kv [<-|[<-|[]]]; simpl; congruence.
Qed.

Lemma up_key_decoded_witness :
  PyDict.get (ESC ++ "OA")%string xterm_rev = Some "up".
Proof.
  apply (up_key_decoded linux_xterm (fresh_world cooked []) xterm_world
           xterm_codes xterm_rev (ESC ++ "OA")%string).
  - reflexivity.
  - vm_compute. reflexivity.
  - reflexivity.
  - reflexivity.
  - reflexivity.
  - discriminate.
  - discriminate.
Defined.

(** Once a menu was built in the process, building another one, with known
    styles, succeeds without running [tput] again, whatever [tput] would
    answer now: nothing is logged and both maps stay as they are. *)
Theorem maps_built_once (P P2 : Platform)
    (entries1 entries2 : list string) (title1 title2 : option string)
    (cursor1 cursor2 : option string) (cs1 hs1 cs2 hs2 : option (list string))
    (cycle1 cycle2 : bool) (w w1 : World) (self1 : TerminalMenu) :
  _codename_to_terminal_code w = None ->
  __init__ P entries1 title1 cursor1 cs1 hs1 cycle1 w = (Ok self1, w1) ->
  (forall style, In style (styles_of cs2 ++ styles_of hs2) -> In style _codenames) ->
  exists self2 w2,
    __init__ P2 entries2 title2 cursor2 cs2 hs2 cycle2 w1 = (Ok self2, w2)
    /\ trace w2 = trace w1
    /\ _codename_to_terminal_code w2 = _codename_to_terminal_code w1
    /\ _terminal_code_to_codename w2 = _terminal_code_to_codename w1.
Proof.
  intros Hnone H1 Hstyles.
  destruct (init_object_Ok_inv P _ _ _ _ _ _ _ _ _ H1) as [_ Hinit].
  destruct (init_codes_Ok P (new_object w) w1 Hnone Hinit)
    as (s & sc & d & evs & _ & _ & _ & _ & _ & Hw1).
  set (self2 := mkTerminalMenu entries2 title2
                  (match cursor2 with Some c => c | None => EmptyString end)
                  (styles_of cs2) (styles_of hs2) cycle2).
  assert (Hv : valid_styles self2 = true).
  { unfold valid_styles. apply forallb_forall. intros style Hs.
    apply codename_is_known, Hstyles, Hs. }
  exists self2, (new_object w1).
  rewrite (init_object_valid P2 _ _ _ _ _ _ w1 Hv).
  assert (E : _init_terminal_codes P2 (new_object w1) = (Ok tt, new_object w1)).
  { unfold _init_terminal_codes. rewrite Hw1. reflexivity. }
  rewrite (bind_Ok _ _ _ _ _ E). repeat split.
Qed.

Lemma maps_built_once_witness :
  exists self2 w2,
    __init__ unknown_terminal ["x"] (Some "t") None (Some ["underline"]) None false
             xterm_world
    = (Ok self2, w2)
    /\ trace w2 = trace xterm_world
    /\ _codename_to_terminal_code w2 = _codename_to_terminal_code xterm_world
    /\ _terminal_code_to_codename w2 = _terminal_code_to_codename xterm_world.
Proof.
  apply (maps_built_once linux_xterm unknown_terminal ["a"; "b"; "c"] ["x"] None (Some "t")
           (Some "> ") None (Some ["fg_red"; "bold"]) (Some ["standout"])
           (Some ["underline"]) None true false
           (fresh_world cooked []) xterm_world (abc_menu true)).
  - reflexivity.
  - vm_compute. reflexivity.
  - intros style [<-|[]]. in_codenames.
Defined.

(** ** Entering the terminal mode, bit by bit *)

(** [_init_term] keeps the snapshot and changes the configuration of the
    terminal in the local flags only, where a bit is set afterwards exactly
    when it was set before and is a bit of neither ICANON nor ECHO. *)
Theorem init_term_clears_icanon_echo (P : Platform) (d rev : PyDict.t) (w : World) :
  ready d rev w ->
  has_codenames d = true ->
  exists w',
    _init_term P w = (Ok tt, w')
    /\ _old_term w' = Some (tty_attrs w)
    /\ iflag (tty_attrs w') = iflag (tty_attrs w)
    /\ oflag (tty_attrs w') = oflag (tty_attrs w)
    /\ cflag (tty_attrs w') = cflag (tty_attrs w)
    /\ ispeed (tty_attrs w') = ispeed (tty_attrs w)
    /\ ospeed (tty_attrs w') = ospeed (tty_attrs w)
    /\ cc (tty_attrs w') = cc (tty_attrs w)
    /\ forall n, 0 <= n ->
         Z.testbit (lflag (tty_attrs w')) n
         = Z.testbit (lflag (tty_attrs w)) n
           && negb (Z.testbit (ICANON P) n) && negb (Z.testbit (ECHO P) n).
Proof.
  intros Hw Hd. exists (entered P d w).
  split; [apply (init_term_Ok P d rev Hd w Hw)|].
  repeat split. intros n Hn. simpl.
  rewrite !Z.land_spec, !Z.lnot_spec by exact Hn. reflexivity.
Qed.

Lemma init_term_clears_icanon_echo_witness :
  exists w',
    _init_term linux_xterm xterm_world = (Ok tt, w')
    /\ _old_term w' = Some (tty_attrs xterm_world)
    /\ iflag (tty_attrs w') = iflag (tty_attrs xterm_world)
    /\ oflag (tty_attrs w') = oflag (tty_attrs xterm_world)
    /\ cflag (tty_attrs w') = cflag (tty_attrs xterm_world)
    /\ ispeed (tty_attrs w') = ispeed (tty_attrs xterm_world)
    /\ ospeed (tty_attrs w') = ospeed (tty_attrs xterm_world)
    /\ cc (tty_attrs w') = cc (tty_attrs xterm_world)
    /\ forall n, 0 <= n ->
         Z.testbit (lflag (tty_attrs w')) n
         = Z.testbit (lflag (tty_attrs xterm_world)) n
           && negb (Z.testbit (ICANON linux_xterm) n)
           && negb (Z.testbit (ECHO linux_xterm) n).
Proof.
  apply (init_term_clears_icanon_echo linux_xterm xterm_codes xterm_rev xterm_world).
  - repeat split.
  - reflexivity.
Defined.

(** ** Checking the styles *)

(** [_check_for_valid_styles] returns exactly when every cursor and
    highlight style is a codename of the class (any of them, colors and
    cursor_up included); otherwise it raises InvalidStyleError; in both
    cases it has no effect. *)
Theorem check_styles_iff (self : TerminalMenu) (w : World) :
  (fst (_check_for_valid_styles self w) = Ok tt
   <-> forall style,
         In style (_menu_cursor_style self ++ _menu_highlight_style self) ->
         In style _codenames)
  /\ (fst (_check_for_valid_styles self w) = Ok tt
      \/ exists msg, fst (_check_for_valid_styles self w) = Raise (InvalidStyleError msg))
  /\ snd (_check_for_valid_styles self w) = w.
Proof.
  destruct (valid_styles self) eqn:Hv.
  - rewrite (check_styles_valid self w Hv). simpl. repeat split; auto.
    intros _ style Hs. apply known_is_codename.
    unfold valid_styles in Hv. rewrite forallb_forall in Hv. apply Hv, Hs.
  - destruct (check_styles_invalid self w Hv) as (msg & E). rewrite E. simpl.
    split; [|split; [right; exists msg; reflexivity | reflexivity]].
    split; [discriminate|]. intros Hall. exfalso.
    apply valid_styles_false_iff in Hv. destruct Hv as (style & Hs & Hm).
    rewrite (codename_is_known style (Hall style Hs)) in Hm. discriminate.
Qed.

(** ** Words read as keys *)

(** A chunk that is no sequence of the reverse map and spells enter, in any
    mix of upper and lower case, selects the entry under the cursor as the
    Enter key does, wherever the cursor is after the reads before it; one
    that spells escape cancels as the Escape key does.  The terminal
    configuration is put back in both cases. *)
Theorem word_chunk_acts_as_key (P : Platform) (d rev : PyDict.t) (self : TerminalMenu)
    (pre : list ReadEvent) (evs : list KeyEvent) (bytes : list byte) (code : string)
    (i : Z) (w : World) :
  ready d rev w ->
  has_codenames d = true ->
  valid_styles self = true ->
  map (event_of rev) pre = map Some evs ->
  run_session self evs = Active i ->
  decode_ascii bytes = Some code ->
  PyDict.get code rev = None ->
  (PyStr.lower code = "enter" ->
   exists w', show P self (pre ++ [Chunk bytes]) w = (Ok (Some i), w')
              /\ tty_attrs w' = tty_attrs w)
  /\ (PyStr.lower code = "escape" ->
      exists w', show P self (pre ++ [Chunk bytes]) w = (Ok None, w')
                 /\ tty_attrs w' = tty_attrs w).
Proof.
  intros Hw Hd Hs Hmap Hrun Hdec Hget.
  assert (Hev : forall word,
             PyStr.lower code = word -> event_of rev (Chunk bytes) = Some (Key word)).
  { intros word <-. unfold event_of, key_of_code. rewrite Hdec. simpl.
    rewrite Hget. reflexivity. }
  split; intros Hword.
  - destruct (show_after P d rev self Hd Hs pre evs (Chunk bytes) i w (Some i) Hw
                Hmap Hrun) as (mid & _ & E).
    + cbn [loop_outcome]. rewrite (Hev _ Hword). reflexivity.
    + eexists. split; [exact E | reflexivity].
  - destruct (show_after P d rev self Hd Hs pre evs (Chunk bytes) i w None Hw
                Hmap Hrun) as (mid & _ & E).
    + cbn [loop_outcome]. rewrite (Hev _ Hword). reflexivity.
    + eexists. split; [exact E | reflexivity].
Qed.

Lemma word_chunk_acts_as_key_witness :
  (PyStr.lower "Enter" = "enter" ->
   exists w',
     show linux_xterm (abc_menu true) ([DOWN_KEY] ++ [Chunk [x45; x6e; x74; x65; x72]])
          xterm_world
     = (Ok (Some 1), w')
     /\ tty_attrs w' = tty_attrs xterm_world)
  /\ (PyStr.lower "Enter" = "escape" ->
      exists w',
        show linux_xterm (abc_menu true) ([DOWN_KEY] ++ [Chunk [x45; x6e; x74; x65; x72]])
             xterm_world
        = (Ok None, w')
        /\ tty_attrs w' = tty_attrs xterm_world).
Proof.
  apply (word_chunk_acts_as_key linux_xterm xterm_codes xterm_rev (abc_menu true)
           [DOWN_KEY] [Key "down"] [x45; x6e; x74; x65; x72] "Enter" 1 xterm_world).
  - repeat split.
  - reflexivity.
  - reflexivity.
  - reflexivity.
  - reflexivity.
  - reflexivity.
  - reflexivity.
Defined.

(** ** One session after the other *)

(** Two sessions in a row, of the same menu or of two menus, whose scripts
    each hold a read that ends them: each ends with the result its own
    script gives, each logs the effects of [_init_term] (the raw
    configuration set), then writes and reads only, then the effects of
    [_reset_term] (the snapshot set again), and the configuration of the
    terminal after each is the one before the first. *)
Theorem sessions_compose (P : Platform) (d rev : PyDict.t) (self1 self2 : TerminalMenu)
    (script1 script2 : list ReadEvent) (w : World) :
  ready d rev w ->
  has_codenames d = true ->
  valid_styles self1 = true ->
  valid_styles self2 = true ->
  existsb (ends_session rev) script1 = true ->
  existsb (ends_session rev) script2 = true ->
  exists mid1 mid2 w1 w2,
    show P self1 script1 w = (show_result self1 rev script1, w1)
    /\ show_result self1 rev script1 <> Blocked
    /\ show P self2 script2 w1 = (show_result self2 rev script2, w2)
    /\ show_result self2 rev script2 <> Blocked
    /\ forallb is_io_event mid1 = true
    /\ forallb is_io_event mid2 = true
    /\ trace w1 = trace w ++ enter_events P d (tty_attrs w) ++ mid1
                          ++ exit_events d (tty_attrs w)
    /\ trace w2 = trace w1 ++ enter_events P d (tty_attrs w) ++ mid2
                           ++ exit_events d (tty_attrs w)
    /\ tty_attrs w1 = tty_attrs w
    /\ tty_attrs w2 = tty_attrs w
    /\ ready d rev w2.
Proof.
  intros Hw Hd Hs1 Hs2 He1 He2.
  assert (Hnb : forall self script,
             existsb (ends_session rev) script = true ->
             show_result self rev script <> Blocked).
  { intros self script He. unfold show_result, interrupt_to_none.
    pose proof (loop_outcome_ends rev self script He 0) as Hl.
    destruct (loop_outcome self rev script 0) as [a|e|]; [discriminate| |congruence].
    destruct e; discriminate. }
  destruct (show_spec P d rev self1 Hd Hs1 script1 w Hw) as (mid1 & Hm1 & E1).
  assert (E1' : show P self1 script1 w = (show_result self1 rev script1, exited P d mid1 w)).
  { rewrite E1. pose proof (Hnb self1 script1 He1).
    destruct (show_result self1 rev script1); [reflexivity | reflexivity | congruence]. }
  assert (Hw1 : ready d rev (exited P d mid1 w)) by exact Hw.
  destruct (show_spec P d rev self2 Hd Hs2 script2 _ Hw1) as (mid2 & Hm2 & E2).
  assert (E2' : show P self2 script2 (exited P d mid1 w)
                = (show_result self2 rev script2, exited P d mid2 (exited P d mid1 w))).
  { rewrite E2. pose proof (Hnb self2 script2 He2).
    destruct (show_result self2 rev script2); [reflexivity | reflexivity | congruence]. }
  exists mid1, mid2, (exited P d mid1 w), (exited P d mid2 (exited P d mid1 w)).
  repeat split; auto; apply Hw.
Qed.

Lemma sessions_compose_witness :
  exists mid1 mid2 w1 w2,
    show linux_xterm (abc_menu true) [DOWN_KEY; ENTER_KEY] xterm_world
    = (show_result (abc_menu true) xterm_rev [DOWN_KEY; ENTER_KEY], w1)
    /\ show_result (abc_menu true) xterm_rev [DOWN_KEY; ENTER_KEY] <> Blocked
    /\ show linux_xterm (abc_menu false) [ESCAPE_KEY] w1
       = (show_result (abc_menu false) xterm_rev [ESCAPE_KEY], w2)
    /\ show_result (abc_menu false) xterm_rev [ESCAPE_KEY] <> Blocked
    /\ forallb is_io_event mid1 = true
    /\ forallb is_io_event mid2 = true
    /\ trace w1 = trace xterm_world ++ enter_events linux_xterm xterm_codes
                                      (tty_attrs xterm_world) ++ mid1
                 ++ exit_events xterm_codes (tty_attrs xterm_world)
    /\ trace w2 = trace w1 ++ enter_events linux_xterm xterm_codes
                              (tty_attrs xterm_world) ++ mid2
                 ++ exit_events xterm_codes (tty_attrs xterm_world)
    /\ tty_attrs w1 = tty_attrs xterm_world
    /\ tty_attrs w2 = tty_attrs xterm_world
    /\ ready xterm_codes xterm_rev w2.
Proof.
  apply (sessions_compose linux_xterm xterm_codes xterm_rev (abc_menu true) (abc_menu false)
           [DOWN_KEY; ENTER_KEY] [ESCAPE_KEY] xterm_world).
  - repeat split.
  - reflexivity.
  - reflexivity.
  - reflexivity.
  - reflexivity.
  - reflexivity.
Defined.

(** ** Painting *)

(** For a menu built by [__init__] in a fresh process whose terminal
    operations do not fail, the three painting functions of [show] return
    for every index and never raise KeyError: every style they look up was
    checked and every codename has its entry in the map; they only write
    to standard output. *)
Theorem painting_never_fails (P : Platform) (menu_entries : list string)
    (title : option string) (menu_cursor : option string)
    (cs hs : option (list string)) (cycle_cursor : bool)
    (w w1 : World) (self : TerminalMenu) :
  _codename_to_terminal_code w = None ->
  faults w = [] ->
  __init__ P menu_entries title menu_cursor cs hs cycle_cursor w = (Ok self, w1) ->
  forall w2 (selected_index : Z) (with_title : bool),
    faults w2 = [] ->
    _codename_to_terminal_code w2 = _codename_to_terminal_code w1 ->
    _terminal_code_to_codename w2 = _terminal_code_to_codename w1 ->
    (exists evs,
        print_menu self selected_index with_title w2
        = (Ok tt, with_trace (trace w2 ++ evs) w2)
        /\ forallb is_io_event evs = true)
    /\ (exists evs,
           position_cursor self selected_index w2
           = (Ok tt, with_trace (trace w2 ++ evs) w2)
           /\ forallb is_io_event evs = true)
    /\ (exists evs,
           clear_menu self w2 = (Ok tt, with_trace (trace w2 ++ evs) w2)
           /\ forallb is_io_event evs = true).
Proof.
  intros Hnone Hf Hinit w2 i b Hf2 Hd2 Hr2.
  destruct (constructed_ready P _ _ _ _ _ _ w w1 self Hnone Hf Hinit)
    as (Hs & d & (_ & Hd1 & Hr1) & Hd).
  assert (Hw2 : ready d (PyDict.invert d) w2).
  { repeat split; congruence. }
  split; [|split].
  - destruct (print_menu_returns d _ self Hd Hs i b w2 Hw2) as ([] & evs & E & Hev).
    exists evs. auto.
  - destruct (position_cursor_returns d _ self Hd Hs i w2 Hw2) as ([] & evs & E & Hev).
    exists evs. auto.
  - destruct (clear_menu_returns d _ self Hd w2 Hw2) as ([] & evs & E & Hev).
    exists evs. auto.
Qed.

Lemma painting_never_fails_witness :
  (exists evs,
      print_menu (abc_menu true) 7 true xterm_world
      = (Ok tt, with_trace (trace xterm_world ++ evs) xterm_world)
      /\ forallb is_io_event evs = true)
  /\ (exists evs,
         position_cursor (abc_menu true) 7 xterm_world
         = (Ok tt, with_trace (trace xterm_world ++ evs) xterm_world)
         /\ forallb is_io_event evs = true)
  /\ (exists evs,
         clear_menu (abc_menu true) xterm_world
         = (Ok tt, with_trace (trace xterm_world ++ evs) xterm_world)
         /\ forallb is_io_event evs = true).
Proof.
  apply (painting_never_fails linux_xterm ["a"; "b"; "c"] None (Some "> ")
           (Some ["fg_red"; "bold"]) (Some ["standout"]) true
           (fresh_world cooked []) xterm_world (abc_menu true)).
  - reflexivity.
  - reflexivity.
  - vm_compute. reflexivity.
  - reflexivity.
  - reflexivity.
  - reflexivity.
Defined.

(** ** A failed initialization *)


